(** * Resume analysis service: the section scorer and the request handler

    A shallow embedding of [api/analyze-resume/index.js] and of the page
    that calls it.

    - A JavaScript string is modelled as a [string]: a sequence of code units
      in the range U+0000..U+00FF (ASCII and Latin-1).  On that range the
      case mappings and the white space class below are the ones of
      ECMAScript.  The action-verb count is also given on texts that hold
      letters from beyond that range whose other case is an ASCII letter
      ([Wide]); there its behaviour under a change of case differs.
    - JavaScript numbers that hold lengths, counts and scores are modelled
      as [Z]; the one division of the program is carried out in [Q] and
      rounded the way [Math.round] does.  The quotients that occur are sums
      of at most six scores divided by six, which IEEE doubles round to the
      same integer.
    - The regular expressions of the program are values of a small syntax,
      run by a backtracking matcher that lists the ends of the matches at a
      position in the order in which the ECMAScript matcher tries them.
    - The request handler runs in a monad that threads the state of the
      outside world (blob container, document container, clock, log) and
      may throw.
    - The page of [ResumeAnalyzer] is a transition system on its five state
      variables and the requests in flight.  An event is handled on the
      state that was rendered last: a click is possible when the button is
      not disabled, and the asynchronous [analyzeResume] is cut at its
      [await fetch(...)] into the part that sends the request and the part
      that runs when the request settles. *)

From Stdlib Require Import String Ascii List ZArith QArith Qround Bool Lia Lqa.
From Stdlib Require Import DecimalString.
Import ListNotations.

Local Open Scope string_scope.
Local Open Scope Z_scope.

(** ** Code units *)

Module Char.

Definition code (c : ascii) : N := N_of_ascii c.

Definition in_range (lo hi : N) (c : ascii) : bool :=
  ((lo <=? code c) && (code c <=? hi))%N.

(** Letters that have a lower-case partner 32 code units above them:
    A-Z and U+00C0..U+00DE without the multiplication sign U+00D7. *)
Definition is_upper (c : ascii) : bool :=
  in_range 65 90 c
  || (in_range 192 222 c && negb (code c =? 215)%N).

(** Letters that have an upper-case partner 32 code units below them:
    a-z and U+00E0..U+00FE without the division sign U+00F7. *)
Definition is_lower (c : ascii) : bool :=
  in_range 97 122 c
  || (in_range 224 254 c && negb (code c =? 247)%N).

(** [String.prototype.toLowerCase] on one code unit. *)
Definition lowerCase (c : ascii) : ascii :=
  if is_upper c then ascii_of_N (code c + 32) else c.

(** [String.prototype.toUpperCase] on one code unit, where the result is
    again one code unit of the range (U+00B5, U+00DF and U+00FF are sent
    out of it and are left alone here). *)
Definition upperCase (c : ascii) : ascii :=
  if is_lower c then ascii_of_N (code c - 32) else c.

(** [Canonicalize(ch)] of a regular expression with the [i] flag and
    without the [u] flag: the upper-case mapping of [ch] when that is a
    single code unit, except that a code unit of 128 or more never
    canonicalizes to one below 128.  The result is a code point, since
    U+00FF and U+00B5 are sent above U+00FF. *)
Definition Canonicalize (c : ascii) : N :=
  if (code c =? 255)%N then 376          (* U+0178 *)
  else if (code c =? 181)%N then 924     (* U+039C *)
  else code (upperCase c).

(** The class [\s]: WhiteSpace and LineTerminator code points below
    U+0100, that is TAB, LF, VT, FF, CR, SP and NBSP. *)
Definition isWhiteSpace (c : ascii) : bool :=
  in_range 9 13 c || (code c =? 32)%N || (code c =? 160)%N.

(** Two code units that differ at most by the case of a letter. *)
Definition same_letter (a b : ascii) : Prop :=
  b = a \/ b = lowerCase a \/ b = upperCase a.

End Char.

(** [String.prototype.toLowerCase]. *)
Fixpoint toLowerCase (s : string) : string :=
  match s with
  | EmptyString => EmptyString
  | String c s' => String (Char.lowerCase c) (toLowerCase s')
  end.

(** Texts of the same length that differ at most by the case of their
    letters, position by position. *)
Fixpoint case_variant (s t : string) : Prop :=
  match s, t with
  | EmptyString, EmptyString => True
  | String a s', String b t' => Char.same_letter a b /\ case_variant s' t'
  | _, _ => False
  end.

(** ** Regular expressions *)

Module RegExp.

(** The syntax the program uses: pattern characters, [\s], a greedy [+]
    on one of these, concatenation and [|]. *)
Inductive atom : Type :=
| PatternChar (c : ascii)
| ClassSpace.

Inductive syntax : Type :=
| Empty
| One (a : atom)
| Plus (a : atom)
| Seq (r1 r2 : syntax)
| Alt (r1 r2 : syntax).

Record regexp : Type := mk
  { source : syntax;
    ignoreCase : bool;
    global : bool }.

(** The pattern that spells out a word. *)
Fixpoint word (w : string) : syntax :=
  match w with
  | EmptyString => Empty
  | String c w' => Seq (One (PatternChar c)) (word w')
  end.

(** [w1|w2|...|wn] *)
Fixpoint disjunction (ws : list string) : syntax :=
  match ws with
  | [] => Empty
  | [w] => word w
  | w :: ws' => Alt (word w) (disjunction ws')
  end.

Definition accepts (ic : bool) (a : atom) (c : ascii) : bool :=
  match a with
  | PatternChar p =>
      if ic then (Char.Canonicalize c =? Char.Canonicalize p)%N
      else (Char.code c =? Char.code p)%N
  | ClassSpace => Char.isWhiteSpace c
  end.

(** The rests of the input after zero or more code units accepted by
    [a], the longest run first. *)
Fixpoint star_ends (ic : bool) (a : atom) (s : string) : list string :=
  match s with
  | EmptyString => [s]
  | String c s' =>
      (if accepts ic a c then star_ends ic a s' else []) ++ [s]
  end.

(** The rests of the input after each match of [r] at the start of [s],
    in the order in which the backtracking matcher reaches them. *)
Fixpoint ends (ic : bool) (r : syntax) (s : string) : list string :=
  match r with
  | Empty => [s]
  | One a =>
      match s with
      | String c s' => if accepts ic a c then [s'] else []
      | EmptyString => []
      end
  | Plus a =>
      match s with
      | String c s' => if accepts ic a c then star_ends ic a s' else []
      | EmptyString => []
      end
  | Seq r1 r2 => flat_map (ends ic r2) (ends ic r1 s)
  | Alt r1 r2 => ends ic r1 s ++ ends ic r2 s
  end.

(** The match that starts exactly at the start of [s]: its length. *)
Definition matchAt (re : regexp) (s : string) : option nat :=
  match ends (ignoreCase re) (source re) s with
  | [] => None
  | rest :: _ => Some (String.length s - String.length rest)%nat
  end.

(** [RegExp.prototype.test] for a regular expression that is neither
    global nor sticky: is there a match at some index from 0 to the
    length of [s]. *)
Fixpoint test (re : regexp) (s : string) : bool :=
  match matchAt re s with
  | Some _ => true
  | None =>
      match s with
      | EmptyString => false
      | String _ s' => test re s'
      end
  end.

End RegExp.

(** ** String methods that take a regular expression *)

(** The loop of [RegExp.prototype[Symbol.split]] on a non-empty rest of the
    input.  [skip] counts the code units of the current match that are
    still to be passed over; [atp] says that the piece under construction
    is still empty (q = p).  The first string of the result is the rest of
    the piece under construction. *)
Fixpoint split_loop (re : RegExp.regexp) (s : string) (skip : nat) (atp : bool)
  : list string :=
  match s with
  | EmptyString => [EmptyString]
  | String c s' =>
      match skip with
      | S k => split_loop re s' k true
      | O =>
          let extend := fun (rest : list string) =>
            match rest with
            | [] => [String c EmptyString]
            | piece :: pieces => String c piece :: pieces
            end in
          match RegExp.matchAt re s with
          | Some (S n) => EmptyString :: split_loop re s' n true
          | Some O =>
              if atp then extend (split_loop re s' 0 false)
              else EmptyString :: extend (split_loop re s' 0 false)
          | None => extend (split_loop re s' 0 false)
          end
      end
  end.

(** [String.prototype.split(re)] without a limit, for a regular expression
    without capture groups. *)
Definition String_split (re : RegExp.regexp) (s : string) : list string :=
  match s with
  | EmptyString =>
      match RegExp.matchAt re s with
      | Some _ => []
      | None => [s]
      end
  | _ => split_loop re s 0 true
  end.

(** The matches of a global regular expression from left to right, each
    search starting where the previous match ended (one further on after
    an empty match). *)
Fixpoint match_loop (re : RegExp.regexp) (s : string) (skip : nat) : list string :=
  match skip with
  | S k =>
      match s with
      | EmptyString => []
      | String _ s' => match_loop re s' k
      end
  | O =>
      match RegExp.matchAt re s with
      | Some n =>
          substring 0 n s ::
          match s with
          | EmptyString => []
          | String _ s' => match_loop re s' (Nat.pred n)
          end
      | None =>
          match s with
          | EmptyString => []
          | String _ s' => match_loop re s' 0
          end
      end
  end.

(** [String.prototype.match(re)] for a global [re]: the array of all the
    matches, or [null] when there is none. *)
Definition String_match (re : RegExp.regexp) (s : string) : option (list string) :=
  match match_loop re s 0 with
  | [] => None
  | ms => Some ms
  end.

(** ** Numbers, arrays and objects *)

(** [Math.round]: the nearest integer, a tie going up. *)
Definition Math_round (x : Q) : Z := Qfloor (x + (1 # 2)).

(** The decimal numeral of an integer, as a template literal prints it. *)
Definition Number_toString (n : Z) : string :=
  NilZero.string_of_int (Z.to_int n).

(** [Array.prototype.push]. *)
Definition push {A : Type} (a : list A) (x : A) : list A := a ++ [x].

(** [v || ''] for a value that is a string or [undefined]. *)
Definition or_empty (v : option string) : string :=
  match v with
  | Some s => s
  | None => EmptyString
  end.

(** A plain object with string keys, its properties in insertion order. *)
Module Obj.

Definition object (V : Type) : Type := list (string * V).

Fixpoint get {V : Type} (o : object V) (k : string) : option V :=
  match o with
  | [] => None
  | (k', v) :: o' => if String.eqb k' k then Some v else get o' k
  end.

(** [o[k] = v]: an existing property keeps its place. *)
Fixpoint set {V : Type} (o : object V) (k : string) (v : V) : object V :=
  match o with
  | [] => [(k, v)]
  | (k', v') :: o' =>
      if String.eqb k' k then (k', v) :: o' else (k', v') :: set o' k v
  end.

Definition keys {V : Type} (o : object V) : list string := map fst o.
Definition values {V : Type} (o : object V) : list V := map snd o.
Definition entries {V : Type} (o : object V) : list (string * V) := o.

End Obj.

(** ** The section scorer *)

Record AnalysisResult : Type := mkAnalysisResult
  { overallScore : Z;
    scores : Obj.object Z;
    findings : list string;
    recommendations : list string }.

Definition calculateSectionScore (exists_ : bool) (wordCount : Z) : Z :=
  if negb exists_ then 0
  else if wordCount <? 20 then 40
  else if wordCount <? 50 then 70
  else if wordCount <? 100 then 90
  else 100.

(** [/(?:w1|...|wn):/i] *)
Definition heading (ws : list string) : RegExp.regexp :=
  RegExp.mk
    (RegExp.Seq (RegExp.disjunction ws)
                (RegExp.One (RegExp.PatternChar ":")))
    true false.

Definition sections : Obj.object RegExp.regexp :=
  [ ("contact", heading ["email"; "phone"; "address"]);
    ("education", heading ["education"; "university"; "college"; "degree"]);
    ("experience", heading ["experience"; "work"; "employment"]);
    ("skills", heading ["skills"; "technologies"; "programming"; "languages"]);
    ("projects", heading ["projects"; "portfolio"]);
    ("achievements", heading ["achievements"; "awards"; "accomplishments"]) ].

(** [/\s+/] *)
Definition whitespace : RegExp.regexp :=
  RegExp.mk (RegExp.Plus RegExp.ClassSpace) false false.

(** [/\n\n/] *)
Definition blank_line : RegExp.regexp :=
  RegExp.mk
    (RegExp.Seq (RegExp.One (RegExp.PatternChar "010"))
                (RegExp.One (RegExp.PatternChar "010")))
    false false.

Definition actionVerbs : list string :=
  ["led"; "developed"; "created"; "managed"; "implemented"; "designed";
   "achieved"].

(** [new RegExp(verb, 'g')] for a verb made of letters. *)
Definition verb_pattern (verb : string) : RegExp.regexp :=
  RegExp.mk (RegExp.word verb) false true.

(** [pattern.test(text)] *)
Definition hasSection (pattern : RegExp.regexp) (text : string) : bool :=
  RegExp.test pattern text.

(** [text.split(pattern)[1]?.split(/\n\n/)[0] || ''] *)
Definition sectionContent (pattern : RegExp.regexp) (text : string) : string :=
  match nth_error (String_split pattern text) 1 with
  | Some after => or_empty (nth_error (String_split blank_line after) 0)
  | None => or_empty None
  end.

(** [sectionContent.split(/\s+/).length] *)
Definition wordCount (pattern : RegExp.regexp) (text : string) : Z :=
  Z.of_nat (List.length (String_split whitespace (sectionContent pattern text))).

Definition add_section (section : string) : string :=
  "Add a " ++ section ++ " section to your resume".

Definition expand_section (section : string) : string :=
  "Expand your " ++ section ++ " section with more details".

Definition strong_section (section : string) (words : Z) : string :=
  "Strong " ++ section ++ " section with " ++ Number_toString words ++ " words".

Definition too_brief : string :=
  "Your resume seems too brief. Add more detailed information.".

Definition too_long : string :=
  "Consider condensing your resume to be more concise.".

Definition more_verbs : string :=
  "Use more action verbs to describe your achievements".

Definition good_verbs (count : Z) : string :=
  "Good use of action verbs (" ++ Number_toString count ++ " found)".

(** The three accumulators of [analyzeResume]. *)
Record locals : Type := mkLocals
  { l_scores : Obj.object Z;
    l_findings : list string;
    l_recommendations : list string }.

(** One round of the loop over [Object.entries(sections)]. *)
Definition analyzeSection (text : string) (st : locals)
  (entry : string * RegExp.regexp) : locals :=
  let (section, pattern) := entry in
  let has := hasSection pattern text in
  let words := wordCount pattern text in
  let scores' := Obj.set (l_scores st) section (calculateSectionScore has words) in
  if negb has then
    mkLocals scores' (l_findings st)
             (push (l_recommendations st) (add_section section))
  else if words <? 20 then
    mkLocals scores' (l_findings st)
             (push (l_recommendations st) (expand_section section))
  else
    mkLocals scores' (push (l_findings st) (strong_section section words))
             (l_recommendations st).

(** [text.split(/\s+/).length] *)
Definition totalWords (text : string) : Z :=
  Z.of_nat (List.length (String_split whitespace text)).

(** The [reduce] over [actionVerbs]. *)
Definition actionVerbCount (text : string) : Z :=
  fold_left
    (fun count verb =>
       let matches :=
         match String_match (verb_pattern verb) (toLowerCase text) with
         | Some ms => ms
         | None => []
         end in
       count + Z.of_nat (List.length matches))
    actionVerbs 0.

(** The sum of the values of an array of numbers, by [reduce] from 0. *)
Definition sum_of (l : list Z) : Z := fold_left Z.add l 0.

Definition analyzeResume (text : string) : AnalysisResult :=
  let st := fold_left (analyzeSection text) (Obj.entries sections)
                      (mkLocals [] [] []) in
  let scores := l_scores st in
  let findings := l_findings st in
  let recommendations := l_recommendations st in
  let recommendations :=
    if totalWords text <? 200 then push recommendations too_brief
    else if 1000 <? totalWords text then push recommendations too_long
    else recommendations in
  let count := actionVerbCount text in
  let (findings, recommendations) :=
    if count <? 5 then (findings, push recommendations more_verbs)
    else (push findings (good_verbs count), recommendations) in
  let overallScore :=
    Math_round (inject_Z (sum_of (Obj.values scores))
                / inject_Z (Z.of_nat (List.length (Obj.keys scores)))) in
  mkAnalysisResult overallScore scores findings recommendations.

(** ** The request handler *)

(** A thrown value: an [Error] with its message. *)
Record Error : Type := mkError { message : string }.

(** Computations that change the outside world and may throw.  The world
    after a throw is the one reached at the throw: what was written before
    stays written. *)
Module Eff.

Definition eff (W A : Type) : Type := W -> (Error + A) * W.

Definition ret {W A : Type} (x : A) : eff W A := fun w => (inr x, w).

Definition throw {W A : Type} (e : Error) : eff W A := fun w => (inl e, w).

Definition bind {W A B : Type} (c : eff W A) (k : A -> eff W B) : eff W B :=
  fun w =>
    match c w with
    | (inr x, w') => k x w'
    | (inl e, w') => (inl e, w')
    end.

(** A library call that may throw and touches nothing. *)
Definition lift {W A : Type} (r : Error + A) : eff W A :=
  fun w => (r, w).

(** A call that cannot throw. *)
Definition total {W A : Type} (f : W -> A * W) : eff W A :=
  fun w => let (x, w') := f w in (inr x, w').

End Eff.

Declare Scope eff_scope.
Delimit Scope eff_scope with eff.
Notation "x <- c ;; k" := (Eff.bind c (fun x => k))
  (at level 61, c at next level, right associativity) : eff_scope.
Notation "c ;;; k" := (Eff.bind c (fun _ => k))
  (at level 61, right associativity) : eff_scope.

(** One part of a multipart body, as [parse-multipart] returns it. *)
Record Part : Type := mkPart
  { filename : string;
    type : string;
    data : string }.

Record Request : Type := mkRequest
  { req_body : string;
    req_headers : Obj.object string }.

Inductive Body : Type :=
| BodyAnalysis (analysis : AnalysisResult)
| BodyError (error details : string).

Record Response : Type := mkResponse
  { status : Z;
    body : Body }.

(** The document written to the [Analyses] container. *)
Record Record_ : Type := mkRecord
  { rec_id : string;
    rec_fileName : string;
    rec_blobUrl : string;
    rec_analysis : AnalysisResult;
    rec_timestamp : string }.

(** Reading a property of [undefined] (V8's message). *)
Definition TypeError_reading (property : string) : Error :=
  mkError ("Cannot read properties of undefined (reading '" ++ property ++ "')").

(** The libraries and services the handler calls, over the state [World]
    of everything outside the handler. *)
Record Services (World : Type) : Type := mkServices
  { Buffer_from : string -> Error + string;
    multipart_getBoundary : option string -> Error + string;
    multipart_Parse : string -> string -> Error + list Part;
    textract_fromBufferWithMime : string -> string -> Eff.eff World string;
    Date_now : World -> Z * World;
    Date_toISOString : World -> string * World;
    blockBlobClient_url : string -> string;
    blockBlobClient_upload : string -> string -> Z -> Eff.eff World unit;
    items_create : Record_ -> Eff.eff World unit;
    context_log_error : string -> Error -> World -> World }.

Arguments Buffer_from {World}.
Arguments multipart_getBoundary {World}.
Arguments multipart_Parse {World}.
Arguments textract_fromBufferWithMime {World}.
Arguments Date_now {World}.
Arguments Date_toISOString {World}.
Arguments blockBlobClient_url {World}.
Arguments blockBlobClient_upload {World}.
Arguments items_create {World}.
Arguments context_log_error {World}.

Section Handler.

Local Open Scope eff_scope.

Context {World : Type} (sv : Services World).

(** The promise of [extractText] rejects with the error of the callback
    and resolves with its text. *)
Definition extractText (buffer mimeType : string) : Eff.eff World string :=
  textract_fromBufferWithMime sv mimeType buffer.

(** [resumeFile.p] for [resumeFile = parts[0]], which is [undefined] when
    there is no part. *)
Definition property {A : Type} (resumeFile : option Part) (name : string)
  (p : Part -> A) : Eff.eff World A :=
  match resumeFile with
  | Some part => Eff.ret (p part)
  | None => Eff.throw (TypeError_reading name)
  end.

(** [`${Date.now()}-${resumeFile.filename}`] *)
Definition blobName_of (now : Z) (file_name : string) : string :=
  Number_toString now ++ "-" ++ file_name.

(** The [try] block. *)
Definition try_block (req : Request) : Eff.eff World AnalysisResult :=
  bodyBuffer <- Eff.lift (Buffer_from sv (req_body req)) ;;
  boundary <- Eff.lift (multipart_getBoundary sv
                          (Obj.get (req_headers req) "content-type")) ;;
  parts <- Eff.lift (multipart_Parse sv bodyBuffer boundary) ;;
  let resumeFile := nth_error parts 0 in
  file_data <- property resumeFile "data" data ;;
  file_type <- property resumeFile "type" type ;;
  text <- extractText file_data file_type ;;
  let analysis := analyzeResume text in
  now <- Eff.total (Date_now sv) ;;
  file_name <- property resumeFile "filename" filename ;;
  let blobName := blobName_of now file_name in
  upload_data <- property resumeFile "data" data ;;
  blockBlobClient_upload sv blobName upload_data
    (Z.of_nat (String.length upload_data)) ;;;
  timestamp <- Eff.total (Date_toISOString sv) ;;
  items_create sv
    (mkRecord blobName file_name (blockBlobClient_url sv blobName)
              analysis timestamp) ;;;
  Eff.ret analysis.

Definition failure (error : Error) : Response :=
  mkResponse 500 (BodyError "Failed to process resume" (message error)).

(** The exported function: the value left in [context.res], and the
    world after the call. *)
Definition handler (req : Request) (w : World) : Response * World :=
  match try_block req w with
  | (inr analysis, w') => (mkResponse 200 (BodyAnalysis analysis), w')
  | (inl error, w') =>
      (failure error,
       context_log_error sv "Error processing resume:" error w')
  end.

(** The first step of a request, the multipart parsing: [Buffer.from],
    [getBoundary] and [Parse]. *)
Definition parsing (req : Request) : Error + list Part :=
  match Buffer_from sv (req_body req) with
  | inl e => inl e
  | inr bodyBuffer =>
      match multipart_getBoundary sv
              (Obj.get (req_headers req) "content-type") with
      | inl e => inl e
      | inr boundary => multipart_Parse sv bodyBuffer boundary
      end
  end.


End Handler.

(** ** Services held in memory *)

(** A world that holds the blobs and the documents in lists, with a clock
    and a log.  The blob container takes [quota] blobs; the extractor reads
    plain text only; a multipart body is taken to hold one file, named
    [resume.txt] and of the type the header declares, or nothing when it is
    empty. *)
Record Memory : Type := mkMemory
  { blobs : list (string * string);
    documents : list Record_;
    clock : Z;
    log : list string }.

Definition memory_services (quota : nat) : Services Memory :=
  {| Buffer_from := fun b => inr b;
     multipart_getBoundary := fun h =>
       match h with
       | Some v => inr v
       | None => inl (mkError "Cannot read properties of undefined (reading 'split')")
       end;
     multipart_Parse := fun buffer boundary =>
       match buffer with
       | EmptyString => inr []
       | _ => inr [mkPart "resume.txt" boundary buffer]
       end;
     textract_fromBufferWithMime := fun mimeType buffer w =>
       if String.eqb mimeType "text/plain" then (inr buffer, w)
       else (inl (mkError "textract does not currently extract files of this type"), w);
     Date_now := fun w =>
       (clock w, mkMemory (blobs w) (documents w) (clock w + 1) (log w));
     Date_toISOString := fun w =>
       (Number_toString (clock w),
        mkMemory (blobs w) (documents w) (clock w + 1) (log w));
     blockBlobClient_url := fun name => "https://resumes/" ++ name;
     blockBlobClient_upload := fun name content _ w =>
       if (List.length (blobs w) <? quota)%nat
       then (inr tt, mkMemory ((name, content) :: blobs w) (documents w)
                              (clock w) (log w))
       else (inl (mkError "quota exceeded"), w);
     items_create := fun r w =>
       (inr tt, mkMemory (blobs w) (r :: documents w) (clock w) (log w));
     context_log_error := fun label e w =>
       mkMemory (blobs w) (documents w) (clock w)
                ((label ++ " " ++ message e) :: log w) |}.

(** ** What the result is made of *)

(** What one section contributes. *)
Definition section_score (text : string) (pattern : RegExp.regexp) : Z :=
  calculateSectionScore (hasSection pattern text) (wordCount pattern text).

Definition section_recommendations (text : string) (entry : string * RegExp.regexp)
  : list string :=
  if negb (hasSection (snd entry) text) then [add_section (fst entry)]
  else if wordCount (snd entry) text <? 20 then [expand_section (fst entry)]
  else [].

Definition section_findings (text : string) (entry : string * RegExp.regexp)
  : list string :=
  if negb (hasSection (snd entry) text) then []
  else if wordCount (snd entry) text <? 20 then []
  else [strong_section (fst entry) (wordCount (snd entry) text)].

Definition brevity_recommendations (text : string) : list string :=
  if totalWords text <? 200 then [too_brief]
  else if 1000 <? totalWords text then [too_long]
  else [].

Definition verb_recommendations (text : string) : list string :=
  if actionVerbCount text <? 5 then [more_verbs] else [].

Definition verb_findings (text : string) : list string :=
  if actionVerbCount text <? 5 then []
  else [good_verbs (actionVerbCount text)].

(** A recommendation about a section: the one to add it or the one to
    expand it. *)
Definition about_section (section recommendation : string) : Prop :=
  recommendation = "Add a " ++ section ++ " section to your resume" \/
  recommendation = "Expand your " ++ section ++ " section with more details".

(** The mean of a list of numbers: their sum over their number. *)
Definition mean (l : list Z) : Q :=
  inject_Z (fold_right Z.add 0 l) / inject_Z (Z.of_nat (List.length l)).

(** A text whose skills section lists one hundred items, and nothing else. *)
Definition hundred_skills : string :=
  "Skills:" ++ String.concat "" (repeat " rocq" 100).

(** The entries of [sections] whose pattern matches the text. *)
Definition detected (text : string) : list (string * RegExp.regexp) :=
  filter (fun entry => hasSection (snd entry) text) (Obj.entries sections).

(** ** Texts with code units beyond U+00FF *)

(** The action-verb count on texts that may also hold three letters from
    beyond U+00FF whose other case is an ASCII letter: the long s U+017F
    (upper case [S]), the dotless i U+0131 (upper case [I]) and the Kelvin
    sign U+212A (lower case [k]).  The definitions are those above, read on
    lists of such code units. *)
Module Wide.

Inductive unit : Type :=
| Latin1 (c : ascii)
| LongS
| DotlessI
| KelvinSign.

Definition text : Type := list unit.

Definition code (u : unit) : N :=
  match u with
  | Latin1 c => Char.code c
  | LongS => 383          (* U+017F *)
  | DotlessI => 305       (* U+0131 *)
  | KelvinSign => 8490    (* U+212A *)
  end.

(** [String.prototype.toLowerCase] on one code unit: U+017F and U+0131 are
    lower-case letters and stay, U+212A becomes [k]. *)
Definition lowerCase (u : unit) : unit :=
  match u with
  | Latin1 c => Latin1 (Char.lowerCase c)
  | LongS => LongS
  | DotlessI => DotlessI
  | KelvinSign => Latin1 "k"
  end.

(** [String.prototype.toUpperCase] on one code unit: U+017F becomes [S],
    U+0131 becomes [I], U+212A is an upper-case letter and stays. *)
Definition upperCase (u : unit) : unit :=
  match u with
  | Latin1 c => Latin1 (Char.upperCase c)
  | LongS => Latin1 "S"
  | DotlessI => Latin1 "I"
  | KelvinSign => KelvinSign
  end.

(** [Canonicalize(ch)] with the [i] flag and without the [u] flag: U+017F
    and U+0131 are 128 or more and their upper case is below 128, so they
    stay; U+212A is its own upper case. *)
Definition Canonicalize (u : unit) : N :=
  match u with
  | Latin1 c => Char.Canonicalize c
  | _ => code u
  end.

Definition isWhiteSpace (u : unit) : bool :=
  match u with
  | Latin1 c => Char.isWhiteSpace c
  | _ => false
  end.

Fixpoint of_string (s : string) : text :=
  match s with
  | EmptyString => []
  | String c s' => Latin1 c :: of_string s'
  end.

(** [String.prototype.toLowerCase]. *)
Definition toLowerCase (s : text) : text := map lowerCase s.

Definition accepts (ic : bool) (a : RegExp.atom) (u : unit) : bool :=
  match a with
  | RegExp.PatternChar p =>
      if ic then (Canonicalize u =? Char.Canonicalize p)%N
      else (code u =? Char.code p)%N
  | RegExp.ClassSpace => isWhiteSpace u
  end.

Fixpoint star_ends (ic : bool) (a : RegExp.atom) (s : text) : list text :=
  match s with
  | [] => [s]
  | u :: s' =>
      ((if accepts ic a u then star_ends ic a s' else []) ++ [s])%list
  end.

Fixpoint ends (ic : bool) (r : RegExp.syntax) (s : text) : list text :=
  match r with
  | RegExp.Empty => [s]
  | RegExp.One a =>
      match s with
      | u :: s' => if accepts ic a u then [s'] else []
      | [] => []
      end
  | RegExp.Plus a =>
      match s with
      | u :: s' => if accepts ic a u then star_ends ic a s' else []
      | [] => []
      end
  | RegExp.Seq r1 r2 => flat_map (ends ic r2) (ends ic r1 s)
  | RegExp.Alt r1 r2 => (ends ic r1 s ++ ends ic r2 s)%list
  end.

Definition matchAt (re : RegExp.regexp) (s : text) : option nat :=
  match ends (RegExp.ignoreCase re) (RegExp.source re) s with
  | [] => None
  | rest :: _ => Some (List.length s - List.length rest)%nat
  end.

Fixpoint match_loop (re : RegExp.regexp) (s : text) (skip : nat) : list text :=
  match skip with
  | S k =>
      match s with
      | [] => []
      | _ :: s' => match_loop re s' k
      end
  | O =>
      match matchAt re s with
      | Some n =>
          firstn n s ::
          match s with
          | [] => []
          | _ :: s' => match_loop re s' (Nat.pred n)
          end
      | None =>
          match s with
          | [] => []
          | _ :: s' => match_loop re s' 0
          end
      end
  end.

Definition String_match (re : RegExp.regexp) (s : text) : option (list text) :=
  match match_loop re s 0 with
  | [] => None
  | ms => Some ms
  end.

(** The [reduce] over [actionVerbs]. *)
Definition actionVerbCount (t : text) : Z :=
  fold_left
    (fun count verb =>
       let matches :=
         match String_match (verb_pattern verb) (toLowerCase t) with
         | Some ms => ms
         | None => []
         end in
       count + Z.of_nat (List.length matches))
    actionVerbs 0.

(** Two code units that differ at most by the case of a letter. *)
Definition same_letter (u v : unit) : Prop :=
  v = u \/ v = lowerCase u \/ v = upperCase u.

(** Texts that are equal up to the case of each code unit. *)
Definition case_variant (s t : text) : Prop := Forall2 same_letter s t.




End Wide.

(** ** Patterns that do not tell letter cases apart *)

(** A regular expression is blind to letter case when each of its atoms
    accepts both or neither of two code units that differ by case. *)
Definition atom_blind (ic : bool) (a : RegExp.atom) : Prop :=
  forall c c', Char.same_letter c c' ->
               RegExp.accepts ic a c = RegExp.accepts ic a c'.

Fixpoint syntax_blind (ic : bool) (r : RegExp.syntax) : Prop :=
  match r with
  | RegExp.Empty => True
  | RegExp.One a => atom_blind ic a
  | RegExp.Plus a => atom_blind ic a
  | RegExp.Seq r1 r2 => syntax_blind ic r1 /\ syntax_blind ic r2
  | RegExp.Alt r1 r2 => syntax_blind ic r1 /\ syntax_blind ic r2
  end.

Definition blind (re : RegExp.regexp) : Prop :=
  syntax_blind (RegExp.ignoreCase re) (RegExp.source re).

(** A regular expression none of whose matches is empty. *)
Definition never_empty (re : RegExp.regexp) : Prop :=
  forall s, RegExp.matchAt re s <> Some O.

(** ** Variations of the services *)

(** The services with another multipart parser. *)
Definition with_Parse {World : Type} (sv : Services World)
  (parse : string -> string -> Error + list Part) : Services World :=
  {| Buffer_from := Buffer_from sv;
     multipart_getBoundary := multipart_getBoundary sv;
     multipart_Parse := parse;
     textract_fromBufferWithMime := textract_fromBufferWithMime sv;
     Date_now := Date_now sv;
     Date_toISOString := Date_toISOString sv;
     blockBlobClient_url := blockBlobClient_url sv;
     blockBlobClient_upload := blockBlobClient_upload sv;
     items_create := items_create sv;
     context_log_error := context_log_error sv |}.


(** ** The page of the browser *)

Module Client.

(** A [File] of the file picker: its name and its MIME type. *)
Record File : Type := mkFile
  { file_name : string;
    file_type : string }.

(** An item of the history.  The analysis is the parsed body of the
    response, which the page stores as it comes. *)
Record HistoryEntry : Type := mkEntry
  { entry_id : Z;
    entry_fileName : string;
    entry_timestamp : string;
    entry_analysis : Body }.

(** The five state variables of [ResumeAnalyzer]. *)
Record State : Type := mkState
  { st_file : option File;
    st_analysis : option Body;
    st_loading : bool;
    st_history : list HistoryEntry;
    st_error : option string }.

Definition initial : State := mkState None None false [] None.

(** How [fetch] settles: it rejects, or it resolves with a response, of
    which the page reads [ok], [statusText] and [json()]. *)
Inductive FetchResult : Type :=
| Rejected (e : Error)
| Resolved (ok : bool) (statusText : string) (json : Error + Body).

(** [handleFileChange], on [event.target.files[0]]. *)
Definition handleFileChange (selectedFile : option File) (st : State) : State :=
  match selectedFile with
  | Some f => mkState (Some f) None (st_loading st) (st_history st) None
  | None => st
  end.

(** [analyzeResume] up to its [await fetch(...)]: the state it leaves, and
    the file of the request it sends, if it sends one. *)
Definition analyzeResume_begin (st : State) : State * option File :=
  match st_file st with
  | None => (st, None)
  | Some f =>
      (mkState (st_file st) (st_analysis st) true (st_history st) None, Some f)
  end.

(** The message of what the [try] block throws, or the parsed body. *)
Definition outcome (r : FetchResult) : string + Body :=
  match r with
  | Rejected e => inl (message e)
  | Resolved false statusText _ => inl ("Analysis failed: " ++ statusText)
  | Resolved true _ (inl e) => inl (message e)
  | Resolved true _ (inr result) => inr result
  end.

(** [analyzeResume] from the point where [fetch] settles, for the request
    sent for [f]; [now] and [iso] are what [Date.now()] and
    [new Date().toISOString()] give. *)
Definition analyzeResume_settle (f : File) (r : FetchResult) (now : Z)
  (iso : string) (st : State) : State :=
  match outcome r with
  | inr result =>
      mkState (st_file st) (Some result) false
              (mkEntry now (file_name f) iso result :: st_history st)
              (st_error st)
  | inl msg =>
      mkState (st_file st) (st_analysis st) false (st_history st) (Some msg)
  end.

(** The click on the bin of the history item with this id. *)
Definition removeHistory (id : Z) (st : State) : State :=
  mkState (st_file st) (st_analysis st) (st_loading st)
          (filter (fun h => negb (entry_id h =? id)) (st_history st))
          (st_error st).

(** [disabled={!file || loading}] of the button. *)
Definition button_disabled (st : State) : bool :=
  match st_file st with
  | None => true
  | Some _ => st_loading st
  end.

(** The page with the requests that have not settled yet, each with the
    file it was sent for. *)
Record Page : Type := mkPage
  { ui : State;
    in_flight : list File }.

Inductive Event : Type :=
| Select (selectedFile : option File)
| Click
| Settle (i : nat) (r : FetchResult) (now : Z) (iso : string)
| Remove (id : Z).

Fixpoint remove_nth {A : Type} (i : nat) (l : list A) : list A :=
  match l, i with
  | [], _ => []
  | _ :: l', O => l'
  | x :: l', S i' => x :: remove_nth i' l'
  end.

(** What an event does to the page; [None] when the page does not offer
    the event: a click on a disabled button, the settling of a request that
    is not in flight, the bin of an item that is not listed. *)
Definition step (p : Page) (e : Event) : option Page :=
  match e with
  | Select selectedFile =>
      Some (mkPage (handleFileChange selectedFile (ui p)) (in_flight p))
  | Click =>
      if button_disabled (ui p) then None
      else
        let (st, sent) := analyzeResume_begin (ui p) in
        match sent with
        | Some f => Some (mkPage st (in_flight p ++ [f]))
        | None => Some (mkPage st (in_flight p))
        end
  | Settle i r now iso =>
      match nth_error (in_flight p) i with
      | Some f =>
          Some (mkPage (analyzeResume_settle f r now iso (ui p))
                       (remove_nth i (in_flight p)))
      | None => None
      end
  | Remove id =>
      if existsb (fun h => entry_id h =? id) (st_history (ui p))
      then Some (mkPage (removeHistory id (ui p)) (in_flight p))
      else None
  end.

Fixpoint run (p : Page) (es : list Event) : option Page :=
  match es with
  | [] => Some p
  | e :: es' =>
      match step p e with
      | Some p' => run p' es'
      | None => None
      end
  end.

(** The requests of a run that settled with a parsed body. *)
Definition succeeded (e : Event) : bool :=
  match e with
  | Settle _ r _ _ =>
      match outcome r with
      | inr _ => true
      | inl _ => false
      end
  | _ => false
  end.


End Client.

(** A text with five long sections, each closed by a blank line, and no
    achievements. *)
Definition five_sections : string :=
  String.concat (String "010" (String "010" ""))
    (map (fun h => h ++ ":" ++ String.concat "" (repeat " rocq" 100))
         ["Email"; "Degree"; "Work"; "Languages"; "Portfolio"]).

(** ** What holds of the page along a run *)

(** No request is in flight and the page is not loading, or one request is
    in flight, the page is loading, a file is selected and no error is
    shown. *)
Definition one_request (p : Client.Page) : Prop :=
  (Client.in_flight p = [] /\ Client.st_loading (Client.ui p) = false) \/
  (exists f,
     Client.in_flight p = [f] /\
     Client.st_loading (Client.ui p) = true /\
     Client.st_error (Client.ui p) = None /\
     Client.st_file (Client.ui p) <> None).

Definition is_selection (e : Client.Event) : bool :=
  match e with
  | Client.Select (Some _) => true
  | _ => false
  end.

Definition is_settling (e : Client.Event) : bool :=
  match e with
  | Client.Settle _ _ _ _ => true
  | _ => false
  end.

(** [f] is the file these events leave selected: it was selected and no
    file was selected after it. *)
Definition selected_last (es : list Client.Event) (f : Client.File) : Prop :=
  exists es1 es2,
    es = (es1 ++ Client.Select (Some f) :: es2)%list /\
    Forall (fun e => is_selection e = false) es2.

(** A request for [f] was sent by these events and has not settled: the
    button was clicked while [f] was the selected file, and no request
    has settled since. *)
Definition sent (es : list Client.Event) (f : Client.File) : Prop :=
  exists es1 es2 es3,
    es = (es1 ++ Client.Select (Some f) :: es2 ++ Client.Click :: es3)%list /\
    Forall (fun e => is_selection e = false) es2 /\
    Forall (fun e => is_settling e = false) es3.

(** The item of the history comes from these events: the button was
    clicked while [f] was the selected file, the first request to settle
    after that click settled with a parsed body, and the item carries the
    name of [f], that body and the clock readings of that settling. *)
Definition entry_from (es : list Client.Event) (h : Client.HistoryEntry) : Prop :=
  exists es1 f es2 es3 i r now iso result es4,
    es = (es1 ++ Client.Select (Some f) :: es2 ++ Client.Click :: es3
          ++ Client.Settle i r now iso :: es4)%list /\
    Forall (fun e => is_selection e = false) es2 /\
    Forall (fun e => is_settling e = false) es3 /\
    Client.outcome r = inr result /\
    h = Client.mkEntry now (Client.file_name f) iso result.

(** Where the files and the items of a page come from. *)
Definition provenance (es : list Client.Event) (p : Client.Page) : Prop :=
  one_request p /\
  (forall f, Client.st_file (Client.ui p) = Some f -> selected_last es f) /\
  (forall f, In f (Client.in_flight p) -> sent es f) /\
  (forall h, In h (Client.st_history (Client.ui p)) -> entry_from es h) /\
  (List.length (Client.st_history (Client.ui p))
   <= List.length (filter Client.succeeded es))%nat.

(** A match of [/\n\n/] at the start of a string is decided by the first
    two code units. *)
Definition starts_blank_line (s : string) : bool :=
  match s with
  | String c (String d _) =>
      (Char.code c =? Char.code "010")%N && (Char.code d =? Char.code "010")%N
  | _ => false
  end.

(** * Properties *)

(** ** Strings and objects *)

Lemma append_length (s t : string) :
  String.length (s ++ t) = (String.length s + String.length t)%nat.
Proof.
  induction s as [|c s IH]; simpl; [reflexivity | now rewrite IH].
Qed.

Lemma append_cancel_r (t s s' : string) : s ++ t = s' ++ t -> s = s'.
Proof.
  revert s'. induction s as [|c s IH]; intros [|c' s'] H; simpl in H.
  - reflexivity.
  - apply (f_equal String.length) in H. simpl in H.
    rewrite append_length in H. lia.
  - apply (f_equal String.length) in H. simpl in H.
    rewrite append_length in H. lia.
  - injection H as Hc Hs. subst c'. f_equal. now apply IH.
Qed.

Lemma add_section_inj (s s' : string) :
  add_section s = add_section s' -> s = s'.
Proof.
  unfold add_section. intros H. simpl in H.
  injection H as H. now apply append_cancel_r in H.
Qed.

Lemma expand_section_inj (s s' : string) :
  expand_section s = expand_section s' -> s = s'.
Proof.
  unfold expand_section. intros H. simpl in H.
  injection H as H. now apply append_cancel_r in H.
Qed.

Lemma add_not_expand (s s' : string) : add_section s <> expand_section s'.
Proof. unfold add_section, expand_section. simpl. discriminate. Qed.

Module ObjFacts.

Lemma get_set_fresh {V : Type} (o : Obj.object V) (k : string) (v : V) :
  ~ In k (Obj.keys o) -> Obj.set o k v = (o ++ [(k, v)])%list.
Proof.
  induction o as [|[k' v'] o IH]; simpl; intros Hk; [reflexivity|].
  destruct (String.eqb_spec k' k) as [->|Hne]; [tauto|].
  rewrite IH; tauto.
Qed.

Lemma get_mapped {V U : Type} (f : V -> U) (o : Obj.object V) (k : string) (v : V) :
  Obj.get o k = Some v ->
  Obj.get (map (fun e => (fst e, f (snd e))) o) k = Some (f v).
Proof.
  induction o as [|[k' v'] o IH]; simpl; [discriminate|].
  destruct (String.eqb k' k); [now intros [= ->] | exact IH].
Qed.

(** Setting the properties of a list of entries with distinct keys, one
    after the other, on an empty object. *)
Lemma fold_set_fresh {V U : Type} (f : V -> U) (es : list (string * V))
  (o : Obj.object U) :
  NoDup (Obj.keys o ++ map fst es)%list ->
  fold_left (fun acc e => Obj.set acc (fst e) (f (snd e))) es o =
  (o ++ map (fun e => (fst e, f (snd e))) es)%list.
Proof.
  revert o. induction es as [|[k v] es IH]; intros o Hnd; simpl.
  - now rewrite app_nil_r.
  - simpl in Hnd. rewrite get_set_fresh.
    + rewrite IH.
      * now rewrite <- app_assoc.
      * unfold Obj.keys in *. rewrite map_app, <- app_assoc. exact Hnd.
    + apply NoDup_remove_2 in Hnd. intros Hin. apply Hnd.
      apply in_or_app. now left.
Qed.

End ObjFacts.

(** ** Splitting *)

Lemma split_loop_nonempty (re : RegExp.regexp) (s : string) (skip : nat) (atp : bool) :
  (1 <= List.length (split_loop re s skip atp))%nat.
Proof.
  revert skip atp. induction s as [|c s IH]; intros skip atp; simpl.
  - lia.
  - destruct skip as [|k]; [|apply IH].
    destruct (RegExp.matchAt re (String c s)) as [[|n]|].
    + destruct atp; destruct (split_loop re s 0 false); simpl; lia.
    + simpl. lia.
    + destruct (split_loop re s 0 false); simpl; lia.
Qed.

(** Splitting on [/\s+/] never gives an empty array. *)
Lemma split_whitespace_nonempty (s : string) :
  (1 <= List.length (String_split whitespace s))%nat.
Proof.
  destruct s as [|c s].
  - simpl. lia.
  - apply split_loop_nonempty.
Qed.

Lemma wordCount_positive (pattern : RegExp.regexp) (text : string) :
  1 <= wordCount pattern text.
Proof.
  unfold wordCount.
  pose proof (split_whitespace_nonempty (sectionContent pattern text)). lia.
Qed.

(** ** The loop over the sections *)

Lemma loop_scores (text : string) (es : list (string * RegExp.regexp)) (st : locals) :
  l_scores (fold_left (analyzeSection text) es st) =
  fold_left (fun acc e => Obj.set acc (fst e) (section_score text (snd e)))
            es (l_scores st).
Proof.
  revert st. induction es as [|[section pattern] es IH]; intros st; simpl.
  - reflexivity.
  - rewrite IH. f_equal. unfold section_score.
    destruct (hasSection pattern text); simpl; [|reflexivity].
    destruct (wordCount pattern text <? 20); reflexivity.
Qed.

Lemma loop_recommendations (text : string) (es : list (string * RegExp.regexp))
  (st : locals) :
  l_recommendations (fold_left (analyzeSection text) es st) =
  (l_recommendations st ++ flat_map (section_recommendations text) es)%list.
Proof.
  revert st. induction es as [|[section pattern] es IH]; intros st; simpl.
  - now rewrite app_nil_r.
  - rewrite IH. unfold section_recommendations, push. simpl.
    destruct (hasSection pattern text); simpl.
    + destruct (wordCount pattern text <? 20); simpl.
      * now rewrite <- app_assoc.
      * reflexivity.
    + now rewrite <- app_assoc.
Qed.

Lemma loop_findings (text : string) (es : list (string * RegExp.regexp))
  (st : locals) :
  l_findings (fold_left (analyzeSection text) es st) =
  (l_findings st ++ flat_map (section_findings text) es)%list.
Proof.
  revert st. induction es as [|[section pattern] es IH]; intros st; simpl.
  - now rewrite app_nil_r.
  - rewrite IH. unfold section_findings, push. simpl.
    destruct (hasSection pattern text); simpl.
    + destruct (wordCount pattern text <? 20); simpl.
      * reflexivity.
      * now rewrite <- app_assoc.
    + reflexivity.
Qed.

(** ** The fields of the result *)

Lemma sections_keys :
  Obj.keys sections =
  ["contact"; "education"; "experience"; "skills"; "projects"; "achievements"].
Proof. reflexivity. Qed.

Lemma sections_NoDup : NoDup (Obj.keys sections).
Proof.
  rewrite sections_keys.
  repeat (constructor; [simpl; intuition discriminate|]). constructor.
Qed.

Lemma sections_get (section : string) (pattern : RegExp.regexp) :
  In (section, pattern) (Obj.entries sections) ->
  Obj.get sections section = Some pattern.
Proof.
  unfold Obj.entries, sections. cbn [In].
  intros H. repeat (destruct H as [H|H]; [injection H as <- <-; reflexivity|]).
  contradiction.
Qed.

Lemma analyzeResume_scores (text : string) :
  scores (analyzeResume text) =
  map (fun e => (fst e, section_score text (snd e))) sections.
Proof.
  unfold analyzeResume.
  destruct (actionVerbCount text <? 5); cbn [scores];
    rewrite loop_scores; unfold Obj.entries;
    rewrite ObjFacts.fold_set_fresh; try reflexivity;
    apply sections_NoDup.
Qed.

Lemma analyzeResume_recommendations (text : string) :
  recommendations (analyzeResume text) =
  (flat_map (section_recommendations text) sections
   ++ brevity_recommendations text ++ verb_recommendations text)%list.
Proof.
  unfold analyzeResume, brevity_recommendations, verb_recommendations, push.
  rewrite loop_recommendations. unfold Obj.entries. cbn [l_recommendations app].
  destruct (actionVerbCount text <? 5); cbn [recommendations];
    destruct (totalWords text <? 200);
    try destruct (1000 <? totalWords text);
    rewrite <- ?app_assoc, ?app_nil_r; reflexivity.
Qed.

Lemma analyzeResume_findings (text : string) :
  findings (analyzeResume text) =
  (flat_map (section_findings text) sections ++ verb_findings text)%list.
Proof.
  unfold analyzeResume, verb_findings, push.
  rewrite loop_findings. unfold Obj.entries. cbn [l_findings app].
  destruct (actionVerbCount text <? 5); cbn [findings];
    rewrite ?app_nil_r; reflexivity.
Qed.

Lemma analyzeResume_overallScore (text : string) :
  overallScore (analyzeResume text) =
  Math_round
    (inject_Z (sum_of (Obj.values (scores (analyzeResume text))))
     / inject_Z (Z.of_nat (List.length (Obj.keys (scores (analyzeResume text)))))).
Proof.
  unfold analyzeResume.
  destruct (actionVerbCount text <? 5); cbn [overallScore scores];
    reflexivity.
Qed.

(** ** Rounding *)

Lemma Math_round_quotient (n d : Z) :
  0 < d ->
  Math_round (inject_Z n / inject_Z d) = (2 * n + d) / (2 * d).
Proof.
  intros Hd. unfold Math_round.
  destruct d as [|p|p]; try lia.
  assert (E : (inject_Z n / inject_Z (Z.pos p) + (1 # 2) ==
               (2 * n + Z.pos p) # (2 * p))%Q).
  { unfold Qeq, Qdiv, Qinv, Qmult, Qplus, inject_Z. cbn [Qnum Qden].
    rewrite ?Pos2Z.inj_mul. lia. }
  rewrite (Qfloor_comp _ _ E). reflexivity.
Qed.

Lemma calculateSectionScore_values (e : bool) (w : Z) :
  In (calculateSectionScore e w) [0; 40; 70; 90; 100].
Proof.
  unfold calculateSectionScore.
  destruct e; simpl; [|tauto].
  destruct (w <? 20); [tauto|].
  destruct (w <? 50); [tauto|].
  destruct (w <? 100); tauto.
Qed.

Lemma calculateSectionScore_long (w : Z) :
  100 <= w -> calculateSectionScore true w = 100.
Proof.
  intros Hw. unfold calculateSectionScore. cbn [negb].
  destruct (Z.ltb_spec w 20), (Z.ltb_spec w 50), (Z.ltb_spec w 100);
    lia || reflexivity.
Qed.

Lemma calculateSectionScore_present (w : Z) :
  40 <= calculateSectionScore true w.
Proof.
  unfold calculateSectionScore. cbn [negb].
  destruct (w <? 20), (w <? 50), (w <? 100); lia.
Qed.

Lemma section_score_range (text : string) (pattern : RegExp.regexp) :
  0 <= section_score text pattern <= 100.
Proof.
  unfold section_score.
  pose proof (calculateSectionScore_values (hasSection pattern text)
                                           (wordCount pattern text)) as H.
  simpl in H. lia.
Qed.

(** ** Letter case *)

Lemma toLowerCase_case_variant_char (a b : ascii) :
  Char.same_letter a b -> Char.lowerCase a = Char.lowerCase b.
Proof.
  destruct a as [[] [] [] [] [] [] [] []];
    (intros [-> | [-> | ->]]; vm_compute; reflexivity).
Qed.

Lemma toLowerCase_case_variant (s t : string) :
  case_variant s t -> toLowerCase s = toLowerCase t.
Proof.
  revert t. induction s as [|a s IH]; intros [|b t]; simpl; try tauto.
  intros [Hab Hst]. f_equal.
  - now apply toLowerCase_case_variant_char.
  - now apply IH.
Qed.

(** ** The entry of a section in the scores *)

Lemma scores_get (text section : string) (pattern : RegExp.regexp) :
  In (section, pattern) (Obj.entries sections) ->
  Obj.get (scores (analyzeResume text)) section =
  Some (section_score text pattern).
Proof.
  intros Hin. rewrite analyzeResume_scores.
  apply (ObjFacts.get_mapped (section_score text)).
  now apply sections_get.
Qed.

(** * The claims *)

(** C1: for every text, the scores are the six section scores, and the
    overall score is their mean rounded to the nearest integer: it is
    [Math.round] of the sum of the six scores over six, it lies within one
    half of that mean, a tie going up, and it lies between 0 and 100. *)
Theorem overallScore_rounded_mean (text : string) :
  let result := analyzeResume text in
  exists contact education experience skills projects achievements : Z,
    scores result =
    [("contact", contact); ("education", education);
     ("experience", experience); ("skills", skills);
     ("projects", projects); ("achievements", achievements)] /\
    let values :=
      [contact; education; experience; skills; projects; achievements] in
    overallScore result = Math_round (mean values) /\
    (inject_Z (overallScore result) - (1 # 2) <= mean values)%Q /\
    (mean values < inject_Z (overallScore result) + (1 # 2))%Q /\
    6 * overallScore result - 3
    <= contact + education + experience + skills + projects + achievements
    < 6 * overallScore result + 3 /\
    0 <= overallScore result <= 100.
Proof.
  cbv zeta.
  pose proof (analyzeResume_scores text) as Hscores.
  unfold sections in Hscores. cbn [map fst snd] in Hscores.
  eexists _, _, _, _, _, _. split; [exact Hscores|].
  assert (Hround :
    overallScore (analyzeResume text) =
    (2 * (section_score text (heading ["email"; "phone"; "address"])
          + section_score text
              (heading ["education"; "university"; "college"; "degree"])
          + section_score text (heading ["experience"; "work"; "employment"])
          + section_score text
              (heading ["skills"; "technologies"; "programming"; "languages"])
          + section_score text (heading ["projects"; "portfolio"])
          + section_score text
              (heading ["achievements"; "awards"; "accomplishments"]))
     + 6) / 12).
  { rewrite analyzeResume_overallScore, Hscores.
    cbn [Obj.values Obj.keys map fst snd List.length sum_of fold_left].
    change (Z.of_nat 6) with 6. rewrite Math_round_quotient by lia.
    f_equal; lia. }
  assert (Hmean : forall v1 v2 v3 v4 v5 v6 : Z,
    Math_round (mean [v1; v2; v3; v4; v5; v6]) =
    (2 * (v1 + v2 + v3 + v4 + v5 + v6) + 6) / 12).
  { intros. unfold mean. cbn [fold_right List.length].
    change (Z.of_nat 6) with 6. rewrite Math_round_quotient by lia.
    f_equal; lia. }
  split; [now rewrite Hmean|].
  set (m := mean _).
  assert (Hm : overallScore (analyzeResume text) = Math_round m)
    by (subst m; now rewrite Hmean).
  pose proof (Qfloor_le (m + (1 # 2))) as Hle.
  pose proof (Qlt_floor (m + (1 # 2))) as Hlt.
  rewrite inject_Z_plus in Hlt. fold (Math_round m) in Hle, Hlt.
  change (inject_Z 1) with 1%Q in Hlt. rewrite <- Hm in Hle, Hlt.
  split; [lra|]. split; [lra|].
  clear Hle Hlt Hm m Hmean. rewrite Hround. clear Hround Hscores.
  repeat match goal with
         | |- context [section_score text ?p] =>
             let H := fresh "H" in
             pose proof (section_score_range text p) as H;
             generalize dependent (section_score text p); intros
         end.
  Z.div_mod_to_equations. lia.
Qed.

(** C2: the section scoring function returns 0 for an absent section and,
    for a present one, 40 below 20 words, 70 below 50, 90 below 100 and 100
    from 100 words on. *)
Theorem calculateSectionScore_steps (wordCount : Z) :
  calculateSectionScore false wordCount = 0 /\
  (wordCount < 20 -> calculateSectionScore true wordCount = 40) /\
  (20 <= wordCount < 50 -> calculateSectionScore true wordCount = 70) /\
  (50 <= wordCount < 100 -> calculateSectionScore true wordCount = 90) /\
  (100 <= wordCount -> calculateSectionScore true wordCount = 100).
Proof.
  unfold calculateSectionScore. cbn [negb].
  split; [reflexivity|].
  destruct (Z.ltb_spec wordCount 20), (Z.ltb_spec wordCount 50),
    (Z.ltb_spec wordCount 100); repeat split; intros; lia.
Qed.

(** C3: when the pattern of one of the six sections does not match the
    text, the section scores 0 and the recommendation
    [Add a <section> section to your resume] is in the recommendations. *)
Theorem absent_section (text section : string) (pattern : RegExp.regexp) :
  In (section, pattern) (Obj.entries sections) ->
  hasSection pattern text = false ->
  Obj.get (scores (analyzeResume text)) section = Some 0 /\
  In ("Add a " ++ section ++ " section to your resume")
     (recommendations (analyzeResume text)).
Proof.
  intros Hin Habsent. split.
  - rewrite (scores_get text section pattern Hin).
    unfold section_score. now rewrite Habsent.
  - rewrite analyzeResume_recommendations.
    apply in_or_app. left. apply in_flat_map.
    exists (section, pattern). split; [exact Hin|].
    unfold section_recommendations. cbn [fst snd].
    rewrite Habsent. left. reflexivity.
Qed.

Lemma absent_section_witness :
  let text := "Email: someone@example.org" in
  In ("skills", heading ["skills"; "technologies"; "programming"; "languages"])
     (Obj.entries sections) /\
  hasSection (heading ["skills"; "technologies"; "programming"; "languages"])
             text = false /\
  Obj.get (scores (analyzeResume text)) "skills" = Some 0 /\
  In "Add a skills section to your resume"
     (recommendations (analyzeResume text)).
Proof.
  cbv zeta.
  assert (Hin : In ("skills",
                    heading ["skills"; "technologies"; "programming"; "languages"])
                   (Obj.entries sections)).
  { unfold Obj.entries, sections. cbn [In]. tauto. }
  split; [exact Hin|]. split; [reflexivity|].
  apply (absent_section _ _ _ Hin). reflexivity.
Defined.

(** C4: when one of the six sections is present and its segment has at
    least 100 words, the section scores 100, the finding
    [Strong <section> section with <n> words], with the decimal numeral of
    the word count for [<n>], is in the findings, and no recommendation
    about that section (to add it or to expand it) is in the
    recommendations. *)
Theorem long_section (text section : string) (pattern : RegExp.regexp) :
  In (section, pattern) (Obj.entries sections) ->
  hasSection pattern text = true ->
  100 <= wordCount pattern text ->
  Obj.get (scores (analyzeResume text)) section = Some 100 /\
  In ("Strong " ++ section ++ " section with "
      ++ NilZero.string_of_int (Z.to_int (wordCount pattern text))
      ++ " words")
     (findings (analyzeResume text)) /\
  forall recommendation,
    In recommendation (recommendations (analyzeResume text)) ->
    ~ about_section section recommendation.
Proof.
  intros Hin Hpresent Hwords.
  assert (Hnot20 : (wordCount pattern text <? 20) = false)
    by (apply Z.ltb_ge; lia).
  split; [|split].
  - rewrite (scores_get text section pattern Hin).
    unfold section_score. rewrite Hpresent.
    f_equal. now apply calculateSectionScore_long.
  - rewrite analyzeResume_findings.
    apply in_or_app. left. apply in_flat_map.
    exists (section, pattern). split; [exact Hin|].
    unfold section_findings. cbn [fst snd].
    rewrite Hpresent, Hnot20. left. reflexivity.
  - intros r Hr Habout. unfold about_section in Habout.
    change ("Add a " ++ section ++ " section to your resume")
      with (add_section section) in Habout.
    change ("Expand your " ++ section ++ " section with more details")
      with (expand_section section) in Habout.
    rewrite analyzeResume_recommendations in Hr.
    apply in_app_or in Hr. destruct Hr as [Hr|Hr].
    + apply in_flat_map in Hr. destruct Hr as [[section' pattern'] [Hin' Hr]].
      assert (Hsame : section' = section -> False).
      { intros ->.
        apply sections_get in Hin, Hin'.
        assert (pattern' = pattern) as -> by congruence.
        unfold section_recommendations in Hr. cbn [fst snd] in Hr.
        rewrite Hpresent, Hnot20 in Hr. exact Hr. }
      unfold section_recommendations in Hr. cbn [fst snd] in Hr.
      destruct (negb (hasSection pattern' text));
        [|destruct (wordCount pattern' text <? 20)];
        simpl in Hr; try tauto;
        destruct Hr as [<-|[]]; destruct Habout as [Ha|Ha].
      * apply Hsame. now apply add_section_inj.
      * now apply add_not_expand in Ha.
      * symmetry in Ha. now apply add_not_expand in Ha.
      * apply Hsame. now apply expand_section_inj.
    + unfold brevity_recommendations, verb_recommendations in Hr.
      destruct (totalWords text <? 200), (1000 <? totalWords text),
        (actionVerbCount text <? 5); simpl in Hr;
        repeat (destruct Hr as [<-|Hr]);
        try contradiction;
        destruct Habout as [Ha|Ha]; discriminate Ha.
Qed.

Lemma long_section_witness :
  let pattern := heading ["skills"; "technologies"; "programming"; "languages"] in
  In ("skills", pattern) (Obj.entries sections) /\
  hasSection pattern hundred_skills = true /\
  100 <= wordCount pattern hundred_skills /\
  Obj.get (scores (analyzeResume hundred_skills)) "skills" = Some 100 /\
  In "Strong skills section with 101 words"
     (findings (analyzeResume hundred_skills)) /\
  forall recommendation,
    In recommendation (recommendations (analyzeResume hundred_skills)) ->
    ~ about_section "skills" recommendation.
Proof.
  cbv zeta.
  assert (Hin : In ("skills",
                    heading ["skills"; "technologies"; "programming"; "languages"])
                   (Obj.entries sections)).
  { unfold Obj.entries, sections. cbn [In]. tauto. }
  assert (Hwords : 100 <= wordCount
                     (heading ["skills"; "technologies"; "programming"; "languages"])
                     hundred_skills).
  { apply Z.leb_le. vm_compute. reflexivity. }
  split; [exact Hin|]. split; [vm_compute; reflexivity|].
  split; [exact Hwords|].
  assert (Hcount : wordCount
                     (heading ["skills"; "technologies"; "programming"; "languages"])
                     hundred_skills = 101) by (vm_compute; reflexivity).
  pose proof (long_section hundred_skills _ _ Hin) as H.
  rewrite Hcount in H. apply H; [vm_compute; reflexivity | lia].
Defined.

(** C5: on the empty string all six scores are 0, the overall score is 0,
    and the recommendations are the six recommendations to add a section,
    then the one about brevity and the one about action verbs; there is no
    finding. *)
Theorem analyzeResume_empty :
  totalWords "" < 200 /\
  actionVerbCount "" < 5 /\
  analyzeResume "" =
  {| overallScore := 0;
     scores := [("contact", 0); ("education", 0); ("experience", 0);
                ("skills", 0); ("projects", 0); ("achievements", 0)];
     findings := [];
     recommendations :=
       ["Add a contact section to your resume";
        "Add a education section to your resume";
        "Add a experience section to your resume";
        "Add a skills section to your resume";
        "Add a projects section to your resume";
        "Add a achievements section to your resume";
        "Your resume seems too brief. Add more detailed information.";
        "Use more action verbs to describe your achievements"] |}.
Proof.
  split; [reflexivity|]. split; [reflexivity|]. vm_compute. reflexivity.
Qed.

Lemma of_string_toLowerCase (s : string) :
  Wide.toLowerCase (Wide.of_string s) = Wide.of_string (toLowerCase s).
Proof.
  induction s as [|c s IH]; [reflexivity|]. cbn. f_equal. exact IH.
Qed.

Lemma of_string_length (s : string) :
  List.length (Wide.of_string s) = String.length s.
Proof. induction s as [|c s IH]; simpl; congruence. Qed.

Lemma of_string_star_ends (ic : bool) (a : RegExp.atom) (s : string) :
  Wide.star_ends ic a (Wide.of_string s) =
  map Wide.of_string (RegExp.star_ends ic a s).
Proof.
  induction s as [|c s IH]; [reflexivity|].
  cbn [Wide.of_string Wide.star_ends RegExp.star_ends].
  rewrite map_app. f_equal.
  change (Wide.accepts ic a (Wide.Latin1 c)) with (RegExp.accepts ic a c).
  destruct (RegExp.accepts ic a c); [exact IH | reflexivity].
Qed.

Lemma of_string_ends (ic : bool) (r : RegExp.syntax) (s : string) :
  Wide.ends ic r (Wide.of_string s) = map Wide.of_string (RegExp.ends ic r s).
Proof.
  revert s. induction r as [|a|a|r1 IH1 r2 IH2|r1 IH1 r2 IH2]; intros s;
    cbn [Wide.ends RegExp.ends].
  - reflexivity.
  - destruct s as [|c s]; [reflexivity|]. cbn [Wide.of_string].
    change (Wide.accepts ic a (Wide.Latin1 c)) with (RegExp.accepts ic a c).
    now destruct (RegExp.accepts ic a c).
  - destruct s as [|c s]; [reflexivity|]. cbn [Wide.of_string].
    change (Wide.accepts ic a (Wide.Latin1 c)) with (RegExp.accepts ic a c).
    destruct (RegExp.accepts ic a c); [apply of_string_star_ends | reflexivity].
  - rewrite IH1. generalize (RegExp.ends ic r1 s). intros l.
    induction l as [|x l IHl]; [reflexivity|].
    cbn [map flat_map]. now rewrite map_app, IH2, IHl.
  - now rewrite map_app, IH1, IH2.
Qed.

Lemma of_string_matchAt (re : RegExp.regexp) (s : string) :
  Wide.matchAt re (Wide.of_string s) = RegExp.matchAt re s.
Proof.
  unfold Wide.matchAt, RegExp.matchAt. rewrite of_string_ends.
  destruct (RegExp.ends _ _ s) as [|rest rests]; [reflexivity|].
  cbn [map]. now rewrite !of_string_length.
Qed.

Lemma of_string_match_loop (re : RegExp.regexp) (s : string) (skip : nat) :
  List.length (Wide.match_loop re (Wide.of_string s) skip) =
  List.length (match_loop re s skip).
Proof.
  revert skip. induction s as [|c s IH]; intros skip.
  - destruct skip; [|reflexivity].
    pose proof (of_string_matchAt re "") as H. cbn [Wide.of_string] in H.
    cbn [Wide.of_string Wide.match_loop match_loop]. rewrite H.
    now destruct (RegExp.matchAt re "").
  - pose proof (of_string_matchAt re (String c s)) as H.
    cbn [Wide.of_string] in H.
    destruct skip as [|k]; cbn [Wide.of_string Wide.match_loop match_loop];
      [|apply IH].
    rewrite H.
    destruct (RegExp.matchAt re (String c s)); cbn [List.length];
      now rewrite IH.
Qed.

(** On a text of code units of U+0000..U+00FF the two counts agree. *)
Lemma of_string_actionVerbCount (s : string) :
  Wide.actionVerbCount (Wide.of_string s) = actionVerbCount s.
Proof.
  unfold Wide.actionVerbCount, actionVerbCount.
  rewrite of_string_toLowerCase.
  generalize 0. generalize actionVerbs. intros verbs.
  induction verbs as [|verb verbs IH]; intros count; [reflexivity|].
  cbn [fold_left]. rewrite IH. do 2 f_equal.
  unfold Wide.String_match, String_match.
  pose proof (of_string_match_loop (verb_pattern verb) (toLowerCase s) 0) as H.
  destruct (Wide.match_loop _ _ 0), (match_loop _ _ 0);
    cbn [List.length] in *; try discriminate;
    first [reflexivity | now rewrite H].
Qed.





(** C8: for every text the keys of the scores are exactly the six section
    names, each once. *)
Theorem scores_keys (text : string) :
  Obj.keys (scores (analyzeResume text)) =
  ["contact"; "education"; "experience"; "skills"; "projects"; "achievements"].
Proof.
  rewrite analyzeResume_scores. reflexivity.
Qed.

(** C9: splitting the empty segment on white space gives one (empty) word,
    the word count of a section is at least 1 for every text, and a section
    that is present scores at least 40. *)
Theorem present_section_at_least_40 (text section : string) (pattern : RegExp.regexp) :
  In (section, pattern) (Obj.entries sections) ->
  hasSection pattern text = true ->
  String_split whitespace "" = [""] /\
  1 <= wordCount pattern text /\
  exists score,
    Obj.get (scores (analyzeResume text)) section = Some score /\
    40 <= score.
Proof.
  intros Hin Hpresent. split; [|split].
  - reflexivity.
  - apply wordCount_positive.
  - exists (section_score text pattern). split.
    + now apply scores_get.
    + unfold section_score. rewrite Hpresent.
      apply calculateSectionScore_present.
Qed.

Lemma present_section_at_least_40_witness :
  let pattern := heading ["email"; "phone"; "address"] in
  let text := "PHONE: 555 0100" in
  In ("contact", pattern) (Obj.entries sections) /\
  hasSection pattern text = true /\
  String_split whitespace "" = [""] /\
  1 <= wordCount pattern text /\
  exists score,
    Obj.get (scores (analyzeResume text)) "contact" = Some score /\
    40 <= score.
Proof.
  cbv zeta.
  assert (Hin : In ("contact", heading ["email"; "phone"; "address"])
                   (Obj.entries sections)).
  { unfold Obj.entries, sections. cbn [In]. tauto. }
  split; [exact Hin|]. split; [vm_compute; reflexivity|].
  apply (present_section_at_least_40 _ _ _ Hin). vm_compute. reflexivity.
Defined.

(** C10: verbs are counted as substrings.  The text [knowledge] is one
    word, which is not a listed verb in any letter case, it holds the verb
    [led] from its fifth letter on, and its action-verb count is 1. *)
Theorem actionVerbCount_substring :
  exists text verb : string,
    In verb actionVerbs /\
    (String.length verb < String.length text)%nat /\
    (exists i, substring i (String.length verb) text = verb) /\
    (forall w, In w (String_split whitespace text) ->
               ~ In (toLowerCase w) actionVerbs) /\
    0 < actionVerbCount text.
Proof.
  exists "knowledge", "led".
  split; [simpl; tauto|]. split; [simpl; lia|].
  split; [exists 4%nat; reflexivity|]. split.
  - intros w Hw. vm_compute in Hw. destruct Hw as [<-|[]].
    vm_compute. intuition discriminate.
  - vm_compute. reflexivity.
Qed.


(** ** Runs of the handler on the services held in memory *)

Example handler_memory_success :
  let req := mkRequest "PHONE: 555 0100" [("content-type", "text/plain")] in
  let run := handler (memory_services 1) req (mkMemory [] [] 1700000000000 []) in
  fst run = mkResponse 200 (BodyAnalysis (analyzeResume "PHONE: 555 0100")) /\
  blobs (snd run) = [("1700000000000-resume.txt", "PHONE: 555 0100")] /\
  map rec_blobUrl (documents (snd run)) =
    ["https://resumes/1700000000000-resume.txt"] /\
  log (snd run) = [].
Proof. vm_compute. repeat split. Qed.

Example handler_memory_quota :
  let req := mkRequest "PHONE: 555 0100" [("content-type", "text/plain")] in
  let run := handler (memory_services 0) req (mkMemory [] [] 1700000000000 []) in
  fst run = mkResponse 500 (BodyError "Failed to process resume" "quota exceeded") /\
  blobs (snd run) = [] /\
  documents (snd run) = [] /\
  log (snd run) = ["Error processing resume: quota exceeded"].
Proof. vm_compute. repeat split. Qed.

Example handler_memory_unsupported :
  let req := mkRequest "PK" [("content-type", "application/zip")] in
  let run := handler (memory_services 1) req (mkMemory [] [] 1700000000000 []) in
  fst run =
    mkResponse 500
      (BodyError "Failed to process resume"
                 "textract does not currently extract files of this type") /\
  blobs (snd run) = [].
Proof. vm_compute. repeat split. Qed.

Example handler_memory_no_part :
  let req := mkRequest "" [("content-type", "text/plain")] in
  let run := handler (memory_services 1) req (mkMemory [] [] 1700000000000 []) in
  fst run =
    mkResponse 500
      (BodyError "Failed to process resume"
                 "Cannot read properties of undefined (reading 'data')").
Proof. vm_compute. reflexivity. Qed.

(** ** Runs of the scorer *)

Example analyzeResume_hundred_skills :
  let result := analyzeResume hundred_skills in
  overallScore result = 17 /\
  Obj.get (scores result) "skills" = Some 100 /\
  findings result = ["Strong skills section with 101 words"] /\
  List.length (recommendations result) = 7%nat.
Proof. vm_compute. repeat split. Qed.

Example actionVerbCount_five :
  findings (analyzeResume "Led, LED, managed; Designed and developed.")
  = ["Good use of action verbs (5 found)"].
Proof. vm_compute. reflexivity. Qed.

(** * Further properties of the scorer *)

(** ** Detection and splitting *)

Lemma split_loop_no_match (re : RegExp.regexp) (s : string) (atp : bool) :
  RegExp.test re s = false -> split_loop re s 0 atp = [s].
Proof.
  revert atp. induction s as [|c s IH]; intros atp Htest; [reflexivity|].
  simpl in Htest. cbn [split_loop].
  destruct (RegExp.matchAt re (String c s)); [discriminate|].
  now rewrite (IH false Htest).
Qed.

Lemma String_split_no_match (re : RegExp.regexp) (s : string) :
  RegExp.test re s = false -> String_split re s = [s].
Proof.
  intros Htest. destruct s as [|c s].
  - simpl in *. now destruct (RegExp.matchAt re "").
  - now apply split_loop_no_match.
Qed.

Lemma star_ends_length (ic : bool) (a : RegExp.atom) (s rest : string) :
  In rest (RegExp.star_ends ic a s) ->
  (String.length rest <= String.length s)%nat.
Proof.
  induction s as [|c s IH]; simpl.
  - intros [<-|[]]. simpl. lia.
  - intros Hin. apply in_app_or in Hin. destruct Hin as [Hin|[<-|[]]].
    + destruct (RegExp.accepts ic a c); [|contradiction].
      specialize (IH Hin). lia.
    + simpl. lia.
Qed.

Lemma ends_length (ic : bool) (r : RegExp.syntax) (s rest : string) :
  In rest (RegExp.ends ic r s) ->
  (String.length rest <= String.length s)%nat.
Proof.
  revert s rest. induction r as [|a|a|r1 IH1 r2 IH2|r1 IH1 r2 IH2];
    intros s rest; simpl.
  - intros [<-|[]]. lia.
  - destruct s as [|c s]; [contradiction|].
    destruct (RegExp.accepts ic a c); [|contradiction].
    intros [<-|[]]. simpl. lia.
  - destruct s as [|c s]; [contradiction|].
    destruct (RegExp.accepts ic a c); [|contradiction].
    intros Hin. apply star_ends_length in Hin. simpl. lia.
  - intros Hin. apply in_flat_map in Hin. destruct Hin as [mid [H1 H2]].
    apply IH1 in H1. apply IH2 in H2. lia.
  - intros Hin. apply in_app_or in Hin. destruct Hin as [Hin|Hin];
      [now apply IH1 | now apply IH2].
Qed.

(** A pattern that ends with one more code unit has no empty match. *)
Lemma ends_Seq_One_shorter (ic : bool) (r : RegExp.syntax) (a : RegExp.atom)
  (s rest : string) :
  In rest (RegExp.ends ic (RegExp.Seq r (RegExp.One a)) s) ->
  (String.length rest < String.length s)%nat.
Proof.
  simpl. intros Hin. apply in_flat_map in Hin. destruct Hin as [mid [H1 H2]].
  apply ends_length in H1.
  destruct mid as [|c mid]; [contradiction|].
  destruct (RegExp.accepts ic a c); [|contradiction].
  destruct H2 as [<-|[]]. simpl in H1. lia.
Qed.

Lemma heading_never_empty (ws : list string) : never_empty (heading ws).
Proof.
  intros s. unfold RegExp.matchAt, heading.
  cbn [RegExp.source RegExp.ignoreCase].
  destruct (RegExp.ends true _ s) as [|rest rests] eqn:E; [discriminate|].
  assert (Hin : In rest (RegExp.ends true
             (RegExp.Seq (RegExp.disjunction ws)
                         (RegExp.One (RegExp.PatternChar ":"))) s))
    by (rewrite E; now left).
  apply ends_Seq_One_shorter in Hin. intros [= H]. lia.
Qed.

Lemma matchAt_empty_string (re : RegExp.regexp) (n : nat) :
  RegExp.matchAt re "" = Some n -> n = O.
Proof.
  unfold RegExp.matchAt. destruct (RegExp.ends _ _ ""); [discriminate|].
  now intros [= <-].
Qed.

Lemma split_loop_match (re : RegExp.regexp) (s : string) (atp : bool) :
  never_empty re -> RegExp.test re s = true ->
  (2 <= List.length (split_loop re s 0 atp))%nat.
Proof.
  intros Hne. revert atp. induction s as [|c s IH]; intros atp Htest.
  - simpl in Htest. destruct (RegExp.matchAt re "") as [n|] eqn:E;
      [|discriminate].
    pose proof (matchAt_empty_string _ _ E) as ->. now destruct (Hne "").
  - simpl in Htest. cbn [split_loop].
    destruct (RegExp.matchAt re (String c s)) as [[|n]|] eqn:E.
    + now destruct (Hne (String c s)).
    + pose proof (split_loop_nonempty re s n true). simpl. lia.
    + specialize (IH false Htest).
      destruct (split_loop re s 0 false); simpl in *; lia.
Qed.

Lemma sections_heading (section : string) (pattern : RegExp.regexp) :
  In (section, pattern) (Obj.entries sections) ->
  exists ws, pattern = heading ws.
Proof.
  unfold Obj.entries, sections. cbn [In]. intros H.
  repeat (destruct H as [H|H]; [injection H as _ <-; eexists; reflexivity|]).
  contradiction.
Qed.

(** X1: when the pattern of a section does not occur in the text, splitting
    on it leaves the text whole, the segment of the section is the empty
    string and its word count is 1. *)
Theorem absent_section_segment (text : string) (pattern : RegExp.regexp) :
  hasSection pattern text = false ->
  String_split pattern text = [text] /\
  sectionContent pattern text = "" /\
  wordCount pattern text = 1.
Proof.
  intros Habsent.
  assert (Hsplit : String_split pattern text = [text])
    by now apply String_split_no_match.
  split; [exact Hsplit|].
  assert (Hcontent : sectionContent pattern text = "")
    by (unfold sectionContent; now rewrite Hsplit).
  split; [exact Hcontent|].
  unfold wordCount. now rewrite Hcontent.
Qed.

Lemma absent_section_segment_witness :
  let pattern := heading ["projects"; "portfolio"] in
  let text := "Project: a compiler" in
  hasSection pattern text = false /\
  String_split pattern text = [text] /\
  sectionContent pattern text = "" /\
  wordCount pattern text = 1.
Proof.
  cbv zeta.
  assert (H : hasSection (heading ["projects"; "portfolio"])
                         "Project: a compiler" = false) by reflexivity.
  split; [exact H|]. apply (absent_section_segment _ _ H).
Defined.

Lemma matchAt_blank_line (s : string) :
  RegExp.matchAt blank_line s =
  if starts_blank_line s then Some 2%nat else None.
Proof.
  unfold RegExp.matchAt, blank_line, starts_blank_line.
  cbn [RegExp.source RegExp.ignoreCase RegExp.ends RegExp.accepts].
  destruct s as [|c [|d s]]; [reflexivity| |].
  - destruct (Char.code c =? Char.code "010")%N; reflexivity.
  - destruct (Char.code c =? Char.code "010")%N; [|reflexivity].
    cbn [flat_map app andb].
    destruct (Char.code d =? Char.code "010")%N; [|reflexivity].
    cbn [String.length app]. f_equal. lia.
Qed.

Lemma newline_code (c : ascii) :
  (Char.code c =? Char.code "010")%N = true -> c = "010"%char.
Proof.
  intros H. apply N.eqb_eq in H. unfold Char.code in H.
  rewrite <- (ascii_N_embedding c), H. reflexivity.
Qed.

(** The first piece of a split on [/\n\n/] is the whole string, which then
    holds no blank line, or it is followed in the string by the first blank
    line of the string. *)
Lemma split_blank_line_first (s : string) (atp : bool) :
  exists p rest,
    split_loop blank_line s 0 atp = p :: rest /\
    ((s = p /\ RegExp.test blank_line p = false) \/
     (exists tail,
        s = p ++ String "010" (String "010" tail) /\
        RegExp.test blank_line (p ++ String "010" "") = false)).
Proof.
  revert atp. induction s as [|c s IH]; intros atp.
  - exists "", []. split; [reflexivity|]. left. now split.
  - cbn [split_loop]. rewrite matchAt_blank_line.
    destruct (starts_blank_line (String c s)) eqn:Hstart.
    + exists "", (split_loop blank_line s 1 true). split; [reflexivity|].
      right. destruct s as [|d s]; [discriminate Hstart|].
      cbn [starts_blank_line] in Hstart.
      apply andb_true_iff in Hstart. destruct Hstart as [Hc Hd].
      apply newline_code in Hc, Hd. subst c d.
      exists s. split; reflexivity.
    + destruct (IH false) as (p & rest & -> & Hp).
      exists (String c p), rest. split; [reflexivity|].
      destruct Hp as [[-> Htest]|(tail & -> & Htest)].
      * left. split; [reflexivity|].
        cbn [RegExp.test]. rewrite matchAt_blank_line, Hstart. exact Htest.
      * right. exists tail. split; [reflexivity|].
        cbn [append RegExp.test]. rewrite matchAt_blank_line.
        replace (starts_blank_line (String c (p ++ String "010" "")))
          with false; [exact Htest|].
        symmetry. destruct p as [|d p]; cbn [append starts_blank_line] in *.
        -- apply andb_false_iff in Hstart. destruct Hstart as [H|H];
             [now rewrite H | discriminate H].
        -- exact Hstart.
Qed.

(** X2: for each of the six sections, the section is detected exactly when
    splitting the text on its pattern gives at least two pieces; and then
    the segment of the section is the start of the second piece up to the
    first blank line of that piece: the second piece is the segment, which
    then holds no blank line, or it is the segment, then a blank line, then
    more, and no blank line starts earlier. *)
Theorem detected_section_segment (text section : string)
  (pattern : RegExp.regexp) :
  In (section, pattern) (Obj.entries sections) ->
  (hasSection pattern text = true <->
   (2 <= List.length (String_split pattern text))%nat) /\
  (hasSection pattern text = true ->
   exists before after rest,
     String_split pattern text = before :: after :: rest /\
     ((after = sectionContent pattern text /\
       RegExp.test blank_line (sectionContent pattern text) = false) \/
      (exists tail,
         after = sectionContent pattern text
                 ++ String "010" (String "010" tail) /\
         RegExp.test blank_line
           (sectionContent pattern text ++ String "010" "") = false))).
Proof.
  intros Hin. destruct (sections_heading _ _ Hin) as [ws ->].
  assert (Hfwd : hasSection (heading ws) text = true ->
                 (2 <= List.length (String_split (heading ws) text))%nat).
  { intros Htest. unfold hasSection in Htest. destruct text as [|c text].
    - simpl in Htest.
      destruct (RegExp.matchAt (heading ws) "") as [n|] eqn:E; [|discriminate].
      pose proof (matchAt_empty_string _ _ E) as ->.
      now destruct (heading_never_empty ws "").
    - apply split_loop_match; [apply heading_never_empty | exact Htest]. }
  split; [split; [exact Hfwd|]|].
  - intros Hlen. destruct (hasSection (heading ws) text) eqn:E; [reflexivity|].
    rewrite (String_split_no_match _ _ E) in Hlen. simpl in Hlen. lia.
  - intros Htest. specialize (Hfwd Htest). unfold sectionContent.
    destruct (String_split (heading ws) text) as [|before [|after rest]];
      simpl in Hfwd; try lia.
    exists before, after, rest. split; [reflexivity|].
    cbn [nth_error]. destruct after as [|c after].
    + left. now split.
    + unfold String_split.
      destruct (split_blank_line_first (String c after) true)
        as (p & pieces & -> & Hp).
      cbn [nth_error or_empty]. exact Hp.
Qed.

Lemma detected_section_segment_witness :
  let pattern := heading ["projects"; "portfolio"] in
  let text :=
    "My PORTFOLIO: a compiler" ++ String "010" (String "010" "and more") in
  In ("projects", pattern) (Obj.entries sections) /\
  sectionContent pattern text = " a compiler" /\
  (hasSection pattern text = true <->
   (2 <= List.length (String_split pattern text))%nat) /\
  (hasSection pattern text = true ->
   exists before after rest,
     String_split pattern text = before :: after :: rest /\
     ((after = sectionContent pattern text /\
       RegExp.test blank_line (sectionContent pattern text) = false) \/
      (exists tail,
         after = sectionContent pattern text
                 ++ String "010" (String "010" tail) /\
         RegExp.test blank_line
           (sectionContent pattern text ++ String "010" "") = false))).
Proof.
  cbv zeta.
  assert (Hin : In ("projects", heading ["projects"; "portfolio"])
                   (Obj.entries sections)).
  { unfold Obj.entries, sections. cbn [In]. tauto. }
  split; [exact Hin|]. split; [reflexivity|].
  apply (detected_section_segment _ _ _ Hin).
Defined.

(** ** The scores *)

Lemma get_mapped_inv {V U : Type} (f : V -> U) (o : Obj.object V)
  (k : string) (u : U) :
  Obj.get (map (fun e => (fst e, f (snd e))) o) k = Some u ->
  exists v, Obj.get o k = Some v /\ u = f v.
Proof.
  induction o as [|[k' v'] o IH]; simpl; [discriminate|].
  destruct (String.eqb k' k); [|exact IH].
  intros [= <-]. now exists v'.
Qed.

Lemma get_In {V : Type} (o : Obj.object V) (k : string) (v : V) :
  Obj.get o k = Some v -> In (k, v) o.
Proof.
  induction o as [|[k' v'] o IH]; simpl; [discriminate|].
  destruct (String.eqb_spec k' k) as [->|_].
  - intros [= ->]. now left.
  - intros H. right. now apply IH.
Qed.

(** X3: every property of the scores belongs to one of the six sections,
    and its value is 0, 40, 70, 90 or 100: 0 exactly when the section is not
    detected. *)
Theorem scores_entries (text key : string) (value : Z) :
  Obj.get (scores (analyzeResume text)) key = Some value ->
  exists pattern,
    In (key, pattern) (Obj.entries sections) /\
    In value [0; 40; 70; 90; 100] /\
    (value = 0 <-> hasSection pattern text = false).
Proof.
  rewrite analyzeResume_scores. intros Hget.
  apply get_mapped_inv in Hget. destruct Hget as [pattern [Hget ->]].
  exists pattern. split; [now apply get_In|]. split.
  - apply calculateSectionScore_values.
  - unfold section_score. destruct (hasSection pattern text).
    + pose proof (calculateSectionScore_present (wordCount pattern text)).
      split; [lia | discriminate].
    + split; reflexivity.
Qed.

Lemma scores_entries_witness :
  let text := "Awards: best paper" in
  Obj.get (scores (analyzeResume text)) "achievements" = Some 40 /\
  exists pattern,
    In ("achievements", pattern) (Obj.entries sections) /\
    In 40 [0; 40; 70; 90; 100] /\
    (40 = 0 <-> hasSection pattern text = false).
Proof.
  cbv zeta.
  assert (H : Obj.get (scores (analyzeResume "Awards: best paper"))
                      "achievements" = Some 40) by (vm_compute; reflexivity).
  split; [exact H|]. apply (scores_entries _ _ _ H).
Defined.



(** ** The messages *)

Lemma section_messages (text : string) (es : list (string * RegExp.regexp)) :
  (List.length (flat_map (section_findings text) es)
   + List.length (flat_map (section_recommendations text) es))%nat
  = List.length es.
Proof.
  induction es as [|e es IH]; [reflexivity|].
  cbn [flat_map]. rewrite !length_app. cbn [List.length]. rewrite <- IH.
  unfold section_findings, section_recommendations.
  destruct (negb (hasSection (snd e) text));
    [|destruct (wordCount (snd e) text <? 20)]; simpl; lia.
Qed.

(** X5: each section gives exactly one message and the action verbs give
    exactly one, a finding or a recommendation; the length of the text gives
    one recommendation when it is below 200 or above 1000 words and none
    otherwise.  So the result carries seven or eight messages. *)
Theorem message_count (text : string) :
  (List.length (findings (analyzeResume text))
   + List.length (recommendations (analyzeResume text)))%nat
  = if (totalWords text <? 200) || (1000 <? totalWords text)
    then 8%nat else 7%nat.
Proof.
  rewrite analyzeResume_findings, analyzeResume_recommendations.
  rewrite !length_app.
  pose proof (section_messages text sections) as H.
  change (List.length sections) with 6%nat in H.
  unfold verb_findings, brevity_recommendations, verb_recommendations.
  destruct (actionVerbCount text <? 5), (totalWords text <? 200),
    (1000 <? totalWords text); cbn [List.length orb]; lia.
Qed.

Lemma section_message_not_global (text r : string)
  (es : list (string * RegExp.regexp)) :
  In r (flat_map (section_recommendations text) es) ->
  r <> too_brief /\ r <> too_long /\ r <> more_verbs.
Proof.
  intros Hr. apply in_flat_map in Hr. destruct Hr as [e [_ Hr]].
  unfold section_recommendations in Hr.
  destruct (negb (hasSection (snd e) text));
    [|destruct (wordCount (snd e) text <? 20)];
    simpl in Hr; try contradiction;
    destruct Hr as [<-|[]]; repeat split; discriminate.
Qed.

(** X6: the recommendation about brevity is made exactly when the text
    splits into fewer than 200 words, the recommendation to condense exactly
    when it splits into more than 1000, and never both. *)
Theorem length_recommendations (text : string) :
  (In too_brief (recommendations (analyzeResume text)) <->
   totalWords text < 200) /\
  (In too_long (recommendations (analyzeResume text)) <->
   1000 < totalWords text) /\
  ~ (In too_brief (recommendations (analyzeResume text)) /\
     In too_long (recommendations (analyzeResume text))).
Proof.
  rewrite analyzeResume_recommendations.
  assert (Hb : In too_brief
                 (flat_map (section_recommendations text) sections
                  ++ brevity_recommendations text
                  ++ verb_recommendations text)
               <-> totalWords text < 200).
  { rewrite !in_app_iff. unfold brevity_recommendations, verb_recommendations.
    split.
    - intros [Hr|[Hr|Hr]].
      + apply section_message_not_global in Hr. tauto.
      + destruct (Z.ltb_spec (totalWords text) 200); [assumption|].
        destruct (1000 <? totalWords text); simpl in Hr;
          [destruct Hr as [Hr|[]]; discriminate Hr | contradiction].
      + destruct (actionVerbCount text <? 5); simpl in Hr;
          [destruct Hr as [Hr|[]]; discriminate Hr | contradiction].
    - intros Hlt. right. left.
      destruct (Z.ltb_spec (totalWords text) 200); [now left | lia]. }
  assert (Hl : In too_long
                 (flat_map (section_recommendations text) sections
                  ++ brevity_recommendations text
                  ++ verb_recommendations text)
               <-> 1000 < totalWords text).
  { rewrite !in_app_iff. unfold brevity_recommendations, verb_recommendations.
    split.
    - intros [Hr|[Hr|Hr]].
      + apply section_message_not_global in Hr. tauto.
      + destruct (Z.ltb_spec (totalWords text) 200);
          [simpl in Hr; destruct Hr as [Hr|[]]; discriminate Hr|].
        destruct (Z.ltb_spec 1000 (totalWords text)); [assumption|].
        contradiction.
      + destruct (actionVerbCount text <? 5); simpl in Hr;
          [destruct Hr as [Hr|[]]; discriminate Hr | contradiction].
    - intros Hgt. right. left.
      destruct (Z.ltb_spec (totalWords text) 200); [lia|].
      destruct (Z.ltb_spec 1000 (totalWords text)); [now left | lia]. }
  split; [exact Hb|]. split; [exact Hl|].
  rewrite Hb, Hl. lia.
Qed.


(** X8: a text that starts with a white space character followed by
    another character splits into an empty first word and the words of the
    rest, so it counts one word more than the text without that character. *)
Theorem leading_space_word (c d : ascii) (s : string) :
  Char.isWhiteSpace c = true ->
  Char.isWhiteSpace d = false ->
  String_split whitespace (String c (String d s)) =
  "" :: String_split whitespace (String d s) /\
  totalWords (String c (String d s)) = 1 + totalWords (String d s).
Proof.
  intros Hc Hd.
  assert (Hm : RegExp.matchAt whitespace (String c (String d s)) = Some 1%nat).
  { unfold RegExp.matchAt, whitespace.
    cbn [RegExp.source RegExp.ignoreCase RegExp.ends RegExp.accepts
         RegExp.star_ends].
    rewrite Hc, Hd. cbn [app String.length]. f_equal. lia. }
  assert (Hsplit : String_split whitespace (String c (String d s)) =
                   "" :: String_split whitespace (String d s)).
  { unfold String_split. cbn [split_loop]. rewrite Hm.
    cbn [split_loop]. reflexivity. }
  split; [exact Hsplit|].
  unfold totalWords. rewrite Hsplit. cbn [List.length]. lia.
Qed.

Lemma leading_space_word_witness :
  Char.isWhiteSpace " " = true /\
  Char.isWhiteSpace "J" = false /\
  String_split whitespace " Java" = [""; "Java"] /\
  totalWords " Java" = 1 + totalWords "Java".
Proof.
  assert (Hc : Char.isWhiteSpace " " = true) by reflexivity.
  assert (Hd : Char.isWhiteSpace "J" = false) by reflexivity.
  split; [exact Hc|]. split; [exact Hd|].
  exact (leading_space_word " " "J" "ava" Hc Hd).
Defined.

(** ** The overall score *)

Lemma overallScore_formula (text : string) :
  overallScore (analyzeResume text) =
  (2 * sum_of (map (fun e => section_score text (snd e)) sections) + 6) / 12.
Proof.
  rewrite analyzeResume_overallScore, analyzeResume_scores.
  unfold Obj.values, Obj.keys. rewrite !map_map, !length_map.
  cbn [snd]. change (Z.of_nat (List.length sections)) with 6.
  now rewrite Math_round_quotient by lia.
Qed.

Lemma sections_forall (P : string -> RegExp.regexp -> Prop) :
  (forall section pattern,
     In (section, pattern) (Obj.entries sections) -> P section pattern) <->
  Forall (fun e => P (fst e) (snd e)) sections.
Proof.
  rewrite Forall_forall. unfold Obj.entries. split.
  - intros H [section pattern] Hin. now apply H.
  - intros H section pattern Hin. exact (H _ Hin).
Qed.

Lemma section_score_zero (text : string) (pattern : RegExp.regexp) :
  section_score text pattern = 0 <-> hasSection pattern text = false.
Proof.
  unfold section_score. destruct (hasSection pattern text).
  - pose proof (calculateSectionScore_present (wordCount pattern text)).
    split; [lia | discriminate].
  - split; reflexivity.
Qed.

Lemma section_score_hundred (text : string) (pattern : RegExp.regexp) :
  section_score text pattern = 100 <->
  hasSection pattern text = true /\ 100 <= wordCount pattern text.
Proof.
  unfold section_score, calculateSectionScore.
  destruct (hasSection pattern text); cbn [negb].
  - destruct (Z.ltb_spec (wordCount pattern text) 20),
      (Z.ltb_spec (wordCount pattern text) 50),
      (Z.ltb_spec (wordCount pattern text) 100);
      (split; [intros Hs; split; [reflexivity | lia] | intros [_ Hs]; lia]).
  - split; [discriminate | intros [Hs _]; discriminate].
Qed.

Lemma section_score_gap (text : string) (pattern : RegExp.regexp) :
  section_score text pattern = 100 \/ section_score text pattern <= 90.
Proof.
  unfold section_score.
  pose proof (calculateSectionScore_values (hasSection pattern text)
                                           (wordCount pattern text)) as H.
  simpl in H. lia.
Qed.

(** The score of a section is at most 100 when the section is detected and
    0 when it is not. *)
Lemma section_score_detected (text : string) (pattern : RegExp.regexp) :
  0 <= section_score text pattern <=
  100 * (if hasSection pattern text then 1 else 0).
Proof.
  pose proof (section_score_range text pattern) as Hr.
  pose proof (section_score_zero text pattern) as Hz.
  destruct (hasSection pattern text); [lia|].
  assert (section_score text pattern = 0) by now apply Hz. lia.
Qed.

Lemma section_score_low (text : string) (pattern : RegExp.regexp) :
  section_score text pattern = 0 \/ 40 <= section_score text pattern.
Proof.
  unfold section_score.
  pose proof (calculateSectionScore_values (hasSection pattern text)
                                           (wordCount pattern text)) as H.
  simpl in H. lia.
Qed.

Lemma filter_nil_iff {A : Type} (f : A -> bool) (l : list A) :
  filter f l = [] <-> Forall (fun x => f x = false) l.
Proof.
  induction l as [|x l IH]; simpl.
  - split; [constructor | reflexivity].
  - rewrite Forall_cons_iff. destruct (f x).
    + split; [discriminate | intros [H _]; discriminate].
    + rewrite IH. tauto.
Qed.

Lemma filter_length_sum {A : Type} (f : A -> bool) (l : list A) :
  Z.of_nat (List.length (filter f l)) =
  fold_right (fun x n => (if f x then 1 else 0) + n) 0 l.
Proof.
  induction l as [|x l IH]; simpl; [reflexivity|].
  destruct (f x); simpl List.length; lia.
Qed.

(** X9: the overall score is 0 exactly when none of the six sections is
    detected. *)
Theorem overallScore_zero (text : string) :
  overallScore (analyzeResume text) = 0 <-> detected text = [].
Proof.
  rewrite overallScore_formula. unfold detected, Obj.entries.
  rewrite filter_nil_iff. unfold sections.
  cbn [map snd fst sum_of fold_left].
  rewrite !Forall_cons_iff, Forall_nil_iff. cbn [fst snd].
  rewrite <- !section_score_zero.
  repeat match goal with
         | |- context [section_score text ?p] =>
             let H := fresh "H" in
             pose proof (section_score_low text p) as H;
             generalize dependent (section_score text p); intros
         end.
  split; intros Hall; Z.div_mod_to_equations; lia.
Qed.

(** X10: the overall score is 100 exactly when each of the six sections is
    detected with at least 100 words. *)
Theorem overallScore_hundred (text : string) :
  overallScore (analyzeResume text) = 100 <->
  forall section pattern,
    In (section, pattern) (Obj.entries sections) ->
    hasSection pattern text = true /\ 100 <= wordCount pattern text.
Proof.
  rewrite sections_forall, overallScore_formula. unfold sections.
  cbn [map snd fst sum_of fold_left].
  rewrite !Forall_cons_iff, Forall_nil_iff. cbn [fst snd].
  rewrite <- !section_score_hundred.
  repeat match goal with
         | |- context [section_score text ?p] =>
             let H := fresh "H" in
             let G := fresh "G" in
             pose proof (section_score_range text p) as H;
             pose proof (section_score_gap text p) as G;
             generalize dependent (section_score text p); intros
         end.
  split.
  - intros Hall. Z.div_mod_to_equations.
    assert (z = 100) by (destruct G; lia).
    assert (z0 = 100) by (destruct G0; lia).
    assert (z1 = 100) by (destruct G1; lia).
    assert (z2 = 100) by (destruct G2; lia).
    assert (z3 = 100) by (destruct G3; lia).
    assert (z4 = 100) by (destruct G4; lia).
    tauto.
  - intros (-> & -> & -> & -> & -> & -> & _). reflexivity.
Qed.

(** X11: an overall score of 70 or more, which is what earns the green
    check mark of the page, takes at least five detected sections. *)
Theorem overallScore_seventy (text : string) :
  70 <= overallScore (analyzeResume text) ->
  (5 <= List.length (detected text))%nat.
Proof.
  rewrite overallScore_formula. intros H.
  apply Nat2Z.inj_le. unfold detected, Obj.entries.
  rewrite filter_length_sum. unfold sections in *.
  cbn [map snd fst sum_of fold_left fold_right] in *.
  repeat match goal with
         | |- context [hasSection ?p text] =>
             let D := fresh "D" in
             pose proof (section_score_detected text p) as D;
             generalize dependent (section_score text p);
             generalize (if hasSection p text then 1 else 0); intros
         end.
  Z.div_mod_to_equations. lia.
Qed.

Lemma overallScore_seventy_witness :
  70 <= overallScore (analyzeResume five_sections) /\
  (5 <= List.length (detected five_sections))%nat.
Proof.
  assert (H : 70 <= overallScore (analyzeResume five_sections)).
  { apply Z.leb_le. vm_compute. reflexivity. }
  split; [exact H|]. exact (overallScore_seventy five_sections H).
Defined.

(** ** Letter case and the whole analysis *)

Lemma same_letter_accepts (ic : bool) (a : RegExp.atom) (c c' : ascii) :
  (ic = true \/ a = RegExp.ClassSpace \/ a = RegExp.PatternChar "010") ->
  Char.same_letter c c' ->
  RegExp.accepts ic a c = RegExp.accepts ic a c'.
Proof.
  intros Ha Hcc'.
  assert (Hcanon : Char.Canonicalize c = Char.Canonicalize c').
  { destruct c as [[] [] [] [] [] [] [] []];
      (destruct Hcc' as [-> | [-> | ->]]; vm_compute; reflexivity). }
  assert (Hspace : Char.isWhiteSpace c = Char.isWhiteSpace c').
  { destruct c as [[] [] [] [] [] [] [] []];
      (destruct Hcc' as [-> | [-> | ->]]; vm_compute; reflexivity). }
  assert (Hnl : (Char.code c =? Char.code "010")%N =
                (Char.code c' =? Char.code "010")%N).
  { destruct c as [[] [] [] [] [] [] [] []];
      (destruct Hcc' as [-> | [-> | ->]]; vm_compute; reflexivity). }
  destruct a as [p|]; cbn [RegExp.accepts].
  - destruct ic.
    + now rewrite Hcanon.
    + destruct Ha as [Ha|[Ha|Ha]]; try discriminate.
      injection Ha as ->. exact Hnl.
  - exact Hspace.
Qed.

Lemma syntax_blind_ignoreCase (r : RegExp.syntax) : syntax_blind true r.
Proof.
  induction r as [|a|a|r1 IH1 r2 IH2|r1 IH1 r2 IH2]; simpl; try tauto;
    intros c c' Hcc'; apply same_letter_accepts; auto.
Qed.

Lemma heading_blind (ws : list string) : blind (heading ws).
Proof. apply syntax_blind_ignoreCase. Qed.

Lemma whitespace_blind : blind whitespace.
Proof. intros c c' Hcc'. apply same_letter_accepts; auto. Qed.

Lemma blank_line_blind : blind blank_line.
Proof. split; intros c c' Hcc'; apply same_letter_accepts; auto. Qed.

Lemma case_variant_length (s t : string) :
  case_variant s t -> String.length s = String.length t.
Proof.
  revert t. induction s as [|a s IH]; intros [|b t]; simpl; try tauto.
  intros [_ H]. f_equal. now apply IH.
Qed.

Lemma Forall2_flat_map {A B : Type} (R : A -> A -> Prop) (Q : B -> B -> Prop)
  (f g : A -> list B) (l l' : list A) :
  (forall x y, R x y -> Forall2 Q (f x) (g y)) ->
  Forall2 R l l' -> Forall2 Q (flat_map f l) (flat_map g l').
Proof.
  intros Hfg H. induction H as [|x y l l' Hxy _ IH]; simpl.
  - constructor.
  - apply Forall2_app; [now apply Hfg | exact IH].
Qed.

Lemma star_ends_case (ic : bool) (a : RegExp.atom) (s t : string) :
  atom_blind ic a -> case_variant s t ->
  Forall2 case_variant (RegExp.star_ends ic a s) (RegExp.star_ends ic a t).
Proof.
  intros Ha. revert t. induction s as [|c s IH]; intros [|d t]; simpl;
    try tauto.
  - intros _. repeat constructor.
  - intros [Hcd Hst]. rewrite (Ha c d Hcd).
    apply Forall2_app.
    + destruct (RegExp.accepts ic a d); [now apply IH | constructor].
    + constructor; [split; assumption | constructor].
Qed.

Lemma ends_case (ic : bool) (r : RegExp.syntax) (s t : string) :
  syntax_blind ic r -> case_variant s t ->
  Forall2 case_variant (RegExp.ends ic r s) (RegExp.ends ic r t).
Proof.
  revert s t. induction r as [|a|a|r1 IH1 r2 IH2|r1 IH1 r2 IH2];
    intros s t Hr Hst; simpl in *.
  - constructor; [assumption | constructor].
  - destruct s as [|c s], t as [|d t]; simpl in Hst; try tauto;
      [constructor|].
    destruct Hst as [Hcd Hst]. rewrite (Hr c d Hcd).
    destruct (RegExp.accepts ic a d);
      [constructor; [assumption | constructor] | constructor].
  - destruct s as [|c s], t as [|d t]; simpl in Hst; try tauto;
      [constructor|].
    destruct Hst as [Hcd Hst]. rewrite (Hr c d Hcd).
    destruct (RegExp.accepts ic a d); [|constructor].
    now apply star_ends_case.
  - destruct Hr as [Hr1 Hr2].
    apply (Forall2_flat_map case_variant case_variant).
    + intros x y Hxy. now apply IH2.
    + now apply IH1.
  - destruct Hr as [Hr1 Hr2]. apply Forall2_app; [now apply IH1 | now apply IH2].
Qed.

Lemma matchAt_case (re : RegExp.regexp) (s t : string) :
  blind re -> case_variant s t ->
  RegExp.matchAt re s = RegExp.matchAt re t.
Proof.
  intros Hre Hst. unfold RegExp.matchAt.
  pose proof (ends_case _ _ s t Hre Hst) as H.
  destruct H as [|x y l l' Hxy _]; [reflexivity|].
  now rewrite (case_variant_length _ _ Hst), (case_variant_length _ _ Hxy).
Qed.

Lemma test_case (re : RegExp.regexp) (s t : string) :
  blind re -> case_variant s t -> RegExp.test re s = RegExp.test re t.
Proof.
  intros Hre. revert t. induction s as [|c s IH]; intros [|d t] Hst;
    simpl in Hst; try contradiction; [reflexivity|].
  cbn [RegExp.test].
  rewrite (matchAt_case re (String c s) (String d t) Hre Hst).
  destruct (RegExp.matchAt re (String d t)); [reflexivity|].
  apply IH. tauto.
Qed.

Lemma split_loop_case (re : RegExp.regexp) (s t : string) (skip : nat)
  (atp : bool) :
  blind re -> case_variant s t ->
  Forall2 case_variant (split_loop re s skip atp) (split_loop re t skip atp).
Proof.
  intros Hre. revert t skip atp.
  induction s as [|c s IH]; intros [|d t] skip atp Hst; simpl in Hst;
    try tauto.
  - repeat constructor.
  - destruct Hst as [Hcd Hst]. cbn [split_loop].
    destruct skip as [|k]; [|now apply IH].
    rewrite (matchAt_case re (String c s) (String d t) Hre (conj Hcd Hst)).
    assert (Hext : Forall2 case_variant
              match split_loop re s 0 false with
              | [] => [String c ""]
              | piece :: pieces => String c piece :: pieces
              end
              match split_loop re t 0 false with
              | [] => [String d ""]
              | piece :: pieces => String d piece :: pieces
              end).
    { destruct (IH t O false Hst) as [|x y l l' Hxy Hll'].
      - constructor; [split; [assumption | exact I] | constructor].
      - constructor; [split; assumption | assumption]. }
    destruct (RegExp.matchAt re (String d t)) as [[|n]|].
    + destruct atp; [exact Hext | constructor; [exact I | exact Hext]].
    + constructor; [exact I | now apply IH].
    + exact Hext.
Qed.

Lemma String_split_case (re : RegExp.regexp) (s t : string) :
  blind re -> case_variant s t ->
  Forall2 case_variant (String_split re s) (String_split re t).
Proof.
  intros Hre Hst. destruct s as [|c s], t as [|d t]; simpl in Hst; try tauto.
  - unfold String_split. destruct (RegExp.matchAt re ""); repeat constructor.
  - now apply split_loop_case.
Qed.

Lemma nth_error_case (l l' : list string) (i : nat) :
  Forall2 case_variant l l' ->
  match nth_error l i, nth_error l' i with
  | Some x, Some y => case_variant x y
  | None, None => True
  | _, _ => False
  end.
Proof.
  intros H. revert i. induction H as [|x y l l' Hxy _ IH]; intros [|i]; simpl;
    try exact I; [exact Hxy | apply IH].
Qed.

Lemma sectionContent_case (pattern : RegExp.regexp) (s t : string) :
  blind pattern -> case_variant s t ->
  case_variant (sectionContent pattern s) (sectionContent pattern t).
Proof.
  intros Hre Hst. unfold sectionContent.
  pose proof (nth_error_case _ _ 1 (String_split_case pattern s t Hre Hst)) as H.
  destruct (nth_error (String_split pattern s) 1) as [after|],
    (nth_error (String_split pattern t) 1) as [after'|]; try tauto.
  pose proof (nth_error_case _ _ 0
                (String_split_case blank_line after after' blank_line_blind H))
    as H0.
  destruct (nth_error (String_split blank_line after) 0),
    (nth_error (String_split blank_line after') 0); simpl; tauto.
Qed.

Lemma wordCount_case (pattern : RegExp.regexp) (s t : string) :
  blind pattern -> case_variant s t ->
  wordCount pattern s = wordCount pattern t.
Proof.
  intros Hre Hst. unfold wordCount. f_equal.
  apply (Forall2_length (R := case_variant)).
  apply String_split_case; [exact whitespace_blind|].
  now apply sectionContent_case.
Qed.

Lemma totalWords_case (s t : string) :
  case_variant s t -> totalWords s = totalWords t.
Proof.
  intros Hst. unfold totalWords. f_equal.
  apply (Forall2_length (R := case_variant)).
  now apply String_split_case; [exact whitespace_blind|].
Qed.

Lemma loop_case (s t : string) (es : list (string * RegExp.regexp))
  (st : locals) :
  Forall (fun e => blind (snd e)) es -> case_variant s t ->
  fold_left (analyzeSection s) es st = fold_left (analyzeSection t) es st.
Proof.
  intros Hes Hst. revert st.
  induction Hes as [|[section pattern] es Hre _ IH]; intros st;
    [reflexivity|].
  cbn [fold_left]. rewrite IH. f_equal. unfold analyzeSection, hasSection.
  now rewrite (test_case pattern s t Hre Hst),
    (wordCount_case pattern s t Hre Hst).
Qed.

Lemma sections_blind : Forall (fun e => blind (snd e)) (Obj.entries sections).
Proof.
  unfold Obj.entries, sections.
  repeat (apply Forall_cons; [apply heading_blind|]). apply Forall_nil.
Qed.

(** X12: for texts made of code units of U+0000..U+00FF, the whole
    result, and not only the action-verb count, is the same for two texts
    that differ only by the case of their letters. *)
Theorem analyzeResume_case (text text' : string) :
  case_variant text text' -> analyzeResume text = analyzeResume text'.
Proof.
  intros Hcase. unfold analyzeResume.
  rewrite (loop_case text text' _ _ sections_blind Hcase).
  rewrite (totalWords_case text text' Hcase).
  unfold actionVerbCount.
  now rewrite (toLowerCase_case_variant text text' Hcase).
Qed.

Lemma analyzeResume_case_witness :
  case_variant "Skills: Rocq" "SKILLS: rocq" /\
  analyzeResume "Skills: Rocq" = analyzeResume "SKILLS: rocq".
Proof.
  assert (H : case_variant "Skills: Rocq" "SKILLS: rocq").
  { cbn [case_variant]. unfold Char.same_letter.
    repeat split;
      first [ left; reflexivity
            | right; left; reflexivity
            | right; right; reflexivity ]. }
  split; [exact H|]. exact (analyzeResume_case _ _ H).
Defined.

(** * Further properties of the handler *)





(** X15: only the first part of the multipart body is read: the handler
    does the same when the parser returns that part alone. *)
Theorem handler_first_part {World : Type} (sv : Services World)
  (req : Request) (w : World) (part : Part) (parts : list Part) :
  parsing sv req = inr (part :: parts) ->
  handler sv req w =
  handler (with_Parse sv (fun _ _ => inr [part])) req w.
Proof.
  unfold handler, try_block, parsing, extractText.
  unfold Eff.bind, Eff.lift, Eff.total, Eff.ret.
  cbn [with_Parse Buffer_from multipart_getBoundary multipart_Parse
       textract_fromBufferWithMime Date_now Date_toISOString
       blockBlobClient_url blockBlobClient_upload items_create
       context_log_error].
  destruct (Buffer_from sv (req_body req)) as [e0|bodyBuffer];
    [discriminate|].
  destruct (multipart_getBoundary sv _) as [e0|boundary]; [discriminate|].
  intros ->. reflexivity.
Qed.

Lemma handler_first_part_witness :
  let sv := with_Parse (memory_services 1)
              (fun buffer boundary =>
                 inr [mkPart "first.txt" boundary buffer;
                      mkPart "second.txt" boundary "Skills: Rocq"]) in
  let req := mkRequest "PHONE: 555 0100" [("content-type", "text/plain")] in
  let w := mkMemory [] [] 1700000000000 [] in
  parsing sv req =
    inr [mkPart "first.txt" "text/plain" "PHONE: 555 0100";
         mkPart "second.txt" "text/plain" "Skills: Rocq"] /\
  handler sv req w =
  handler (with_Parse sv
             (fun _ _ => inr [mkPart "first.txt" "text/plain" "PHONE: 555 0100"]))
          req w.
Proof.
  cbv zeta. split; [reflexivity|].
  apply (handler_first_part _ _ _ _
           [mkPart "second.txt" "text/plain" "Skills: Rocq"]).
  reflexivity.
Defined.

(** * Properties of the page *)

Lemma one_request_step (p p' : Client.Page) (e : Client.Event) :
  one_request p -> Client.step p e = Some p' -> one_request p'.
Proof.
  intros Hp. destruct p as [st fl]. unfold one_request in *.
  cbn [Client.in_flight Client.ui] in *.
  destruct e as [[f|]|  |i r now iso|id]; cbn [Client.step Client.ui Client.in_flight].
  - intros [= <-]. cbn [Client.in_flight Client.ui Client.handleFileChange
                        Client.st_loading Client.st_error Client.st_file].
    destruct Hp as [[-> Hl]|[g (-> & Hl & He & Hf)]].
    + now left.
    + right. exists g. repeat split; try assumption. discriminate.
  - intros [= <-]. exact Hp.
  - unfold Client.button_disabled, Client.analyzeResume_begin.
    destruct (Client.st_file st) as [f|] eqn:Ef; [|discriminate].
    destruct (Client.st_loading st) eqn:El; [discriminate|].
    intros [= <-]. cbn [Client.in_flight Client.ui Client.st_loading
                        Client.st_error Client.st_file].
    destruct Hp as [[-> _]|[g (_ & Hl & _)]]; [|discriminate].
    right. exists f. repeat split. discriminate.
  - destruct (nth_error fl i) as [f|] eqn:En; [|discriminate].
    intros [= <-]. cbn [Client.in_flight Client.ui].
    destruct Hp as [[-> _]|[g (-> & _)]].
    + destruct i; discriminate En.
    + destruct i as [|[|i]]; try discriminate En.
      left. split; [reflexivity|].
      unfold Client.analyzeResume_settle.
      destruct (Client.outcome r); reflexivity.
  - destruct (existsb _ _); [|discriminate].
    intros [= <-]. exact Hp.
Qed.

Lemma remove_nth_In {A : Type} (i : nat) (l : list A) (x : A) :
  In x (Client.remove_nth i l) -> In x l.
Proof.
  revert i. induction l as [|y l IH]; intros [|i]; simpl; auto.
  intros [->|H]; [now left | right; eauto].
Qed.

Lemma selected_last_snoc (es : list Client.Event) (f : Client.File)
  (e : Client.Event) :
  selected_last es f -> is_selection e = false ->
  selected_last (es ++ [e]) f.
Proof.
  intros (es1 & es2 & -> & H2) He.
  exists es1, (es2 ++ [e])%list. split.
  - now rewrite <- app_assoc.
  - apply Forall_app. split; [exact H2 | now constructor].
Qed.

Lemma selected_last_new (es : list Client.Event) (f : Client.File) :
  selected_last (es ++ [Client.Select (Some f)]) f.
Proof. exists es, []. split; [reflexivity | constructor]. Qed.

Lemma sent_snoc (es : list Client.Event) (f : Client.File) (e : Client.Event) :
  sent es f -> is_settling e = false -> sent (es ++ [e]) f.
Proof.
  intros (es1 & es2 & es3 & -> & H2 & H3) He.
  exists es1, es2, (es3 ++ [e])%list. split; [|split].
  - rewrite <- !app_assoc. cbn [app]. now rewrite <- app_assoc.
  - exact H2.
  - apply Forall_app. split; [exact H3 | now constructor].
Qed.

Lemma sent_new (es : list Client.Event) (f : Client.File) :
  selected_last es f -> sent (es ++ [Client.Click]) f.
Proof.
  intros (es1 & es2 & -> & H2).
  exists es1, es2, []. split; [|split].
  - rewrite <- !app_assoc. reflexivity.
  - exact H2.
  - constructor.
Qed.

Lemma entry_from_snoc (es : list Client.Event) (h : Client.HistoryEntry)
  (e : Client.Event) :
  entry_from es h -> entry_from (es ++ [e]) h.
Proof.
  intros (es1 & f & es2 & es3 & i & r & now & iso & result & es4
          & -> & H2 & H3 & Ho & ->).
  exists es1, f, es2, es3, i, r, now, iso, result, (es4 ++ [e])%list.
  repeat split; try assumption.
  rewrite <- !app_assoc. cbn [app]. rewrite <- !app_assoc. cbn [app].
  now rewrite <- app_assoc.
Qed.

Lemma entry_from_new (es : list Client.Event) (f : Client.File) (i : nat)
  (r : Client.FetchResult) (now : Z) (iso : string) (result : Body) :
  sent es f -> Client.outcome r = inr result ->
  entry_from (es ++ [Client.Settle i r now iso])
             (Client.mkEntry now (Client.file_name f) iso result).
Proof.
  intros (es1 & es2 & es3 & -> & H2 & H3) Ho.
  exists es1, f, es2, es3, i, r, now, iso, result, [].
  repeat split; try assumption.
  rewrite <- !app_assoc. cbn [app]. rewrite <- !app_assoc. reflexivity.
Qed.

Lemma provenance_step (done : list Client.Event) (p p' : Client.Page)
  (e : Client.Event) :
  provenance done p -> Client.step p e = Some p' ->
  provenance (done ++ [e]) p'.
Proof.
  intros (Hone & Hfile & Hflight & Hhist & Hlen) Hstep.
  split; [eapply one_request_step; eauto|].
  destruct p as [st fl]. cbn [Client.in_flight Client.ui] in *.
  rewrite filter_app, length_app.
  destruct e as [[f|]|  |i r now iso|id];
    cbn [Client.step Client.ui Client.in_flight] in Hstep.
  - injection Hstep as <-.
    cbn [Client.in_flight Client.ui Client.handleFileChange
         Client.st_history Client.st_file filter Client.succeeded
         List.length].
    repeat split.
    + intros g [= <-]. apply selected_last_new.
    + intros g Hg. apply sent_snoc; auto.
    + intros h Hh. apply entry_from_snoc; auto.
    + lia.
  - injection Hstep as <-.
    cbn [Client.in_flight Client.ui Client.handleFileChange
         Client.st_history Client.st_file filter Client.succeeded
         List.length].
    repeat split.
    + intros g Hg. apply selected_last_snoc; auto.
    + intros g Hg. apply sent_snoc; auto.
    + intros h Hh. apply entry_from_snoc; auto.
    + lia.
  - unfold Client.button_disabled, Client.analyzeResume_begin in Hstep.
    destruct (Client.st_file st) as [f|] eqn:Ef; [|discriminate].
    destruct (Client.st_loading st); [discriminate|].
    injection Hstep as <-.
    cbn [Client.in_flight Client.ui Client.st_history Client.st_file
         filter Client.succeeded List.length].
    repeat split.
    + intros g [= <-]. apply selected_last_snoc; auto.
    + intros g Hg. apply in_app_or in Hg.
      destruct Hg as [Hg|[<-|[]]]; [apply sent_snoc; auto|].
      apply sent_new; auto.
    + intros h Hh. apply entry_from_snoc; auto.
    + lia.
  - destruct (nth_error fl i) as [f|] eqn:En; [|discriminate].
    injection Hstep as <-. cbn [Client.in_flight Client.ui].
    assert (Hfl : fl = [f] /\ i = O).
    { destruct Hone as [[Hnil _]|[g (Hg & _)]];
        cbn [Client.in_flight] in *; subst fl.
      - destruct i; discriminate En.
      - destruct i as [|[|i]]; try discriminate En.
        injection En as ->. now split. }
    destruct Hfl as [-> ->]. cbn [Client.remove_nth].
    assert (Hf : sent done f) by (apply Hflight; now left).
    unfold Client.analyzeResume_settle.
    cbn [filter Client.succeeded List.length].
    destruct (Client.outcome r) as [msg|result] eqn:Eo;
      cbn [Client.st_history Client.st_file List.length Client.ui
           Client.in_flight];
      repeat split.
    + intros g Hg. apply selected_last_snoc; auto.
    + intros g [].
    + intros h Hh. apply entry_from_snoc; auto.
    + lia.
    + intros g Hg. apply selected_last_snoc; auto.
    + intros g [].
    + intros h [<-|Hh].
      * now apply entry_from_new.
      * apply entry_from_snoc; auto.
    + lia.
  - destruct (existsb _ _); [|discriminate].
    injection Hstep as <-.
    cbn [Client.in_flight Client.ui Client.removeHistory
         Client.st_history Client.st_file filter Client.succeeded
         List.length].
    repeat split.
    + intros g Hg. apply selected_last_snoc; auto.
    + intros g Hg. apply sent_snoc; auto.
    + intros h Hh. apply filter_In in Hh. destruct Hh as [Hh _].
      apply entry_from_snoc; auto.
    + pose proof (filter_length_le
                    (fun h => negb (Client.entry_id h =? id))
                    (Client.st_history st)). lia.
Qed.

(** X16: along every run of the page from its initial state, at most one
    request is in flight; the page is loading exactly while one is, and
    then a file is selected and no error is shown. *)
Theorem page_one_request (es : list Client.Event) (p : Client.Page) :
  Client.run (Client.mkPage Client.initial []) es = Some p ->
  one_request p.
Proof.
  assert (H : forall q, one_request q -> Client.run q es = Some p ->
                        one_request p).
  { induction es as [|e es IH]; intros q Hq; simpl.
    - now intros [= <-].
    - destruct (Client.step q e) as [q'|] eqn:E; [|discriminate].
      apply IH. eapply one_request_step; eauto. }
  apply H. left. split; reflexivity.
Qed.

Lemma page_one_request_witness :
  let f := Client.mkFile "cv.txt" "text/plain" in
  let g := Client.mkFile "cv.pdf" "application/pdf" in
  let es := [Client.Select (Some f); Client.Click; Client.Select (Some g)] in
  let p := Client.mkPage
             (Client.mkState (Some g) None true [] None) [f] in
  Client.run (Client.mkPage Client.initial []) es = Some p /\
  one_request p.
Proof.
  cbv zeta. split; [reflexivity|].
  apply (page_one_request
           [Client.Select (Some (Client.mkFile "cv.txt" "text/plain"));
            Client.Click;
            Client.Select (Some (Client.mkFile "cv.pdf" "application/pdf"))]).
  reflexivity.
Defined.

(** X17: along every run of the page from its initial state, each item of
    the history was made by a request of the run that settled with a parsed
    body: it carries that body, the clock readings of that settling and the
    name of the file that was selected when the button was clicked for that
    request, whatever was selected afterwards; and the history has at most
    as many items as requests settled that way. *)
Theorem history_provenance (es : list Client.Event) (p : Client.Page) :
  Client.run (Client.mkPage Client.initial []) es = Some p ->
  (forall h, In h (Client.st_history (Client.ui p)) -> entry_from es h) /\
  (List.length (Client.st_history (Client.ui p))
   <= List.length (filter Client.succeeded es))%nat.
Proof.
  assert (H : forall done q, provenance done q -> Client.run q es = Some p ->
                             provenance (done ++ es) p).
  { induction es as [|e es IH]; intros done q Hq; simpl.
    - intros [= <-]. now rewrite app_nil_r.
    - destruct (Client.step q e) as [q'|] eqn:E; [|discriminate].
      intros Hrun.
      replace (done ++ e :: es)%list with ((done ++ [e]) ++ es)%list
        by (rewrite <- app_assoc; reflexivity).
      eapply IH; [|exact Hrun]. eapply provenance_step; eauto. }
  intros Hrun.
  destruct (H [] (Client.mkPage Client.initial [])) as (_ & _ & _ & Hh & Hl);
    [|exact Hrun|split; assumption].
  split; [left; split; reflexivity|].
  repeat split; cbn; try discriminate; try contradiction. lia.
Qed.

Lemma history_provenance_witness :
  let f := Client.mkFile "cv.txt" "text/plain" in
  let g := Client.mkFile "cv.pdf" "application/pdf" in
  let result := BodyAnalysis (analyzeResume "") in
  let es := [Client.Select (Some f); Client.Click; Client.Select (Some g);
             Client.Settle 0 (Client.Resolved true "OK" (inr result))
                           1700000000000 "2023-11-14T22:13:20.000Z"] in
  let p := Client.mkPage
             (Client.mkState (Some g) (Some result) false
                [Client.mkEntry 1700000000000 "cv.txt"
                                "2023-11-14T22:13:20.000Z" result]
                None) [] in
  Client.run (Client.mkPage Client.initial []) es = Some p /\
  (forall h, In h (Client.st_history (Client.ui p)) -> entry_from es h) /\
  (List.length (Client.st_history (Client.ui p))
   <= List.length (filter Client.succeeded es))%nat.
Proof.
  cbv zeta. split; [reflexivity|].
  apply (history_provenance
           [Client.Select (Some (Client.mkFile "cv.txt" "text/plain"));
            Client.Click;
            Client.Select (Some (Client.mkFile "cv.pdf" "application/pdf"));
            Client.Settle 0
              (Client.Resolved true "OK" (inr (BodyAnalysis (analyzeResume ""))))
              1700000000000 "2023-11-14T22:13:20.000Z"]).
  reflexivity.
Defined.

Lemma filter_twice {A : Type} (f g : A -> bool) (l : list A) :
  filter f (filter g l) = filter (fun x => g x && f x) l.
Proof.
  induction l as [|x l IH]; simpl; [reflexivity|].
  destruct (g x); simpl; [destruct (f x)|]; now rewrite IH.
Qed.

(** X18: the bin of a history item removes every item that carries its id
    and no other, keeps the order of the rest, and leaves the other state
    variables alone; doing it twice is doing it once, and two removals can
    be done in either order. *)
Theorem removeHistory_items (id : Z) (st : Client.State) :
  (forall h, In h (Client.st_history (Client.removeHistory id st)) <->
             In h (Client.st_history st) /\ Client.entry_id h <> id) /\
  (forall h h' before between after,
     Client.st_history st = (before ++ h :: between ++ h' :: after)%list ->
     Client.entry_id h <> id -> Client.entry_id h' <> id ->
     exists before' between' after',
       Client.st_history (Client.removeHistory id st) =
       (before' ++ h :: between' ++ h' :: after')%list) /\
  Client.removeHistory id (Client.removeHistory id st) =
  Client.removeHistory id st /\
  (forall id', Client.removeHistory id (Client.removeHistory id' st) =
               Client.removeHistory id' (Client.removeHistory id st)).
Proof.
  unfold Client.removeHistory. cbn [Client.st_history Client.st_file
    Client.st_analysis Client.st_loading Client.st_error].
  split; [|split; [|split]].
  - intros h. rewrite filter_In, negb_true_iff, Z.eqb_neq. tauto.
  - intros h h' before between after -> Hh Hh'.
    rewrite filter_app. cbn [filter].
    rewrite filter_app. cbn [filter].
    apply Z.eqb_neq in Hh, Hh'. rewrite Hh, Hh'. cbn [negb].
    eexists _, _, _. reflexivity.
  - f_equal. rewrite filter_twice. apply filter_ext.
    intros h. now destruct (negb (Client.entry_id h =? id)).
  - intros id'. f_equal. rewrite !filter_twice. apply filter_ext.
    intros h. apply andb_comm.
Qed.



(** * The segment of a section and the blank lines *)

Lemma split_blank_line_head (s : string) (atp : bool) :
  exists p rest,
    split_loop blank_line s 0 atp = p :: rest /\
    RegExp.test blank_line p = false /\
    (p = "" \/ exists c p' s', p = String c p' /\ s = String c s').
Proof.
  revert atp. induction s as [|c s IH]; intros atp.
  - exists "", []. repeat split. now left.
  - cbn [split_loop]. rewrite matchAt_blank_line.
    destruct (starts_blank_line (String c s)) eqn:Hstart.
    + exists "", (split_loop blank_line s 1 true). repeat split. now left.
    + destruct (IH false) as (p & rest & -> & Htest & Hhead).
      exists (String c p), rest. split; [reflexivity|]. split.
      * cbn [RegExp.test]. rewrite matchAt_blank_line.
        replace (starts_blank_line (String c p)) with false; [exact Htest|].
        destruct Hhead as [->|(d & p' & s' & -> & ->)].
        -- reflexivity.
        -- symmetry. exact Hstart.
      * right. now exists c, p, s.
Qed.

(** X21: the segment of a section holds no blank line: [/\n\n/] does not
    match in it, for any pattern and any text. *)
Theorem sectionContent_no_blank_line (pattern : RegExp.regexp) (text : string) :
  RegExp.test blank_line (sectionContent pattern text) = false.
Proof.
  unfold sectionContent.
  destruct (nth_error (String_split pattern text) 1) as [after|];
    [|reflexivity].
  destruct after as [|c after]; [reflexivity|].
  unfold String_split.
  destruct (split_blank_line_head (String c after) true)
    as (p & rest & -> & Htest & _).
  exact Htest.
Qed.
